(** * Custom SCIM attribute extraction: getAttributesFromScimPayload

    A shallow embedding of
    [packages/features/ee/dsync/lib/getAttributesFromScimPayload.ts]
    and the properties of its extraction procedure.

    The TypeScript function receives a directory-sync event whose
    [data.raw] field is the SCIM resource document (parsed JSON), walks
    the document's [schemas] array and gathers, in a fresh object
    [scimUserAttributes], the custom attributes found in each namespace.

    Modelling choices, all taken from the JavaScript semantics of the
    source:
    - payload values are JSON values (plus [undefined]); numbers are IEEE
      754 doubles, carried by Rocq's primitive floats; a string is
      carried by its bytes in generalised UTF-8, from which [utf16Units]
      recovers the UTF-16 code units that [Object.entries] lists;
    - a payload object is the list of its own enumerable properties in
      enumeration order, which is the order of [Object.entries] and of
      the rest pattern [{ schemas, ...namespaceData }];
    - the result object [scimUserAttributes] is a finite map of its own
      properties; a property read on it, as on [raw], falls back on
      [Object.prototype], whose members are all truthy;
    - the logger and the console are an append-only sink threaded through
      the computation; a JavaScript exception is an abrupt completion. *)

From Stdlib Require Import Floats.PrimFloat.
From Stdlib Require Import Numbers.DecimalString.
From stdpp Require Import base strings list gmap.

Local Open Scope string_scope.

Set Warnings "-register-all".

(** ** JavaScript values of a payload *)

Inductive JsValue : Type :=
  | JUndefined
  | JNull
  | JBool (b : bool)
  | JNumber (x : float)
  | JString (s : string)
  | JArray (items : list JsValue)
  | JObject (props : list (string * JsValue)).

(** [!value] is [negb (truthy value)]: the falsy values are [undefined],
    [null], [false], [+0], [-0], [NaN] and the empty string. *)
Definition truthy (v : JsValue) : bool :=
  match v with
  | JUndefined | JNull => false
  | JBool b => b
  | JNumber x => negb (PrimFloat.is_zero x || PrimFloat.is_nan x)
  | JString s => negb (String.eqb s "")
  | JArray _ | JObject _ => true
  end.

(** [typeof v === "string"] *)
Definition typeofString (v : JsValue) : bool :=
  match v with
  | JString _ => true
  | _ => false
  end.

(** [value instanceof Array && value.every((item) => typeof item === "string")] *)
Definition isStringArray (v : JsValue) : bool :=
  match v with
  | JArray items => forallb typeofString items
  | _ => false
  end.

(** The enumerable-index keys ["0"], ["1"], ... of arrays and strings. *)
Definition indexKey (i : nat) : string :=
  NilEmpty.string_of_uint (Nat.to_uint i).

(** The names every plain object inherits from [Object.prototype]. Each
    of them reads as a function, or as the prototype object itself for
    [__proto__]: a truthy value without own enumerable properties. *)
Definition objectPrototypeKeys : list string :=
  [ "constructor"; "__defineGetter__"; "__defineSetter__"; "hasOwnProperty";
    "__lookupGetter__"; "__lookupSetter__"; "isPrototypeOf";
    "propertyIsEnumerable"; "toString"; "valueOf"; "__proto__";
    "toLocaleString" ].

(** The outcome of a property read [obj[name]] on a plain object. *)
Inductive Lookup : Type :=
  | Own (v : JsValue)
  | Inherited
  | Absent.

Fixpoint lookupOwn (props : list (string * JsValue)) (name : string)
  : option JsValue :=
  match props with
  | [] => None
  | (k, v) :: rest => if String.eqb k name then Some v else lookupOwn rest name
  end.

Definition getProperty (own : option JsValue) (name : string) : Lookup :=
  match own with
  | Some v => Own v
  | None => if bool_decide (name ∈ objectPrototypeKeys) then Inherited else Absent
  end.

Definition lookupTruthy (r : Lookup) : bool :=
  match r with
  | Own v => truthy v
  | Inherited => true
  | Absent => false
  end.

(** A payload object has no two properties of the same name. *)
Fixpoint wellFormed (v : JsValue) : bool :=
  match v with
  | JArray items => forallb wellFormed items
  | JObject props =>
      bool_decide (NoDup (map fst props))
      && forallb (fun p => wellFormed (snd p)) props
  | _ => true
  end.

(** ** Events, log sink, completions *)

Record DirectorySyncEvent : Type := {
  event : string;
  data_raw : JsValue
}.

Inductive LogEntry : Type :=
  | LogError (tag message : string)
  | LogWarn (tag message : string)
  | ConsoleLog (label : string) (dumped : gmap string JsValue).

Inductive JsError : Type :=
  | TypeError.

Inductive Completion (A : Type) : Type :=
  | Normal (a : A)
  | Throw (e : JsError).
Arguments Normal {A} a.
Arguments Throw {A} e.

(** The mutable state of one call: the closure variable
    [scimUserAttributes] and what has been logged so far. *)
Record State : Type := {
  scimUserAttributes : gmap string JsValue;
  sink : list LogEntry
}.

Definition M (A : Type) : Type := State -> Completion A * State.

Definition ret {A} (a : A) : M A := fun st => (Normal a, st).

Definition throw {A} (e : JsError) : M A := fun st => (Throw e, st).

Definition bind {A B} (m : M A) (k : A -> M B) : M B :=
  fun st =>
    match m st with
    | (Normal a, st') => k a st'
    | (Throw e, st') => (Throw e, st')
    end.

Notation "'let*' x ':=' m 'in' k" := (bind m (fun x => k))
  (at level 10, x pattern, m at level 100, k at level 200).

(** [list.forEach(callback)] *)
Fixpoint forEach {X} (callback : X -> M unit) (l : list X) : M unit :=
  match l with
  | [] => ret tt
  | x :: rest => let* _ := callback x in forEach callback rest
  end.

Definition emit (e : LogEntry) : M unit :=
  fun st =>
    (Normal tt,
     {| scimUserAttributes := scimUserAttributes st; sink := sink st ++ [e] |}).

Definition tag : string := "getAttributesFromScimPayload".

Definition logError (message : string) : M unit := emit (LogError tag message).
Definition logWarn (message : string) : M unit := emit (LogWarn tag message).

(** [scimUserAttributes[name]] *)
Definition readAttribute (name : string) : M Lookup :=
  fun st => (Normal (getProperty (scimUserAttributes st !! name) name), st).

(** [scimUserAttributes[name] = value] *)
Definition writeAttribute (name : string) (value : JsValue) : M unit :=
  fun st =>
    (Normal tt,
     {| scimUserAttributes := <[name := value]> (scimUserAttributes st);
        sink := sink st |}).

Definition currentAttributes : M (gmap string JsValue) :=
  fun st => (Normal (scimUserAttributes st), st).

(** A JavaScript string is a sequence of UTF-16 code units; the model
    carries it by its bytes in generalised UTF-8 (a surrogate on its own
    takes three bytes), which is what a string literal of this file
    holds. [utf16Units] cuts the bytes into the code units of the
    string, each given as the one-unit string it forms: one unit for a
    sequence of one, two or three bytes, the two surrogates for a
    sequence of four. A byte that starts no sequence counts for itself. *)
Definition isContinuation (b : Ascii.ascii) : bool :=
  N.eqb (N.land (Ascii.N_of_ascii b) 0xC0) 0x80.

Definition continuationBits (b : Ascii.ascii) : N :=
  N.land (Ascii.N_of_ascii b) 0x3F.

(** The three bytes of a code unit from U+0800 on. *)
Definition encodeUnit (u : N) : string :=
  String (Ascii.ascii_of_N (N.lor 0xE0 (N.shiftr u 12)))
    (String (Ascii.ascii_of_N (N.lor 0x80 (N.land (N.shiftr u 6) 0x3F)))
       (String (Ascii.ascii_of_N (N.lor 0x80 (N.land u 0x3F))) EmptyString)).

Fixpoint utf16Units (bytes : list Ascii.ascii) : list string :=
  match bytes with
  | [] => []
  | b0 :: rest0 =>
      let alone := String b0 EmptyString :: utf16Units rest0 in
      let n0 := Ascii.N_of_ascii b0 in
      if N.eqb (N.land n0 0xE0) 0xC0 then
        match rest0 with
        | b1 :: rest1 =>
            if isContinuation b1
            then String b0 (String b1 EmptyString) :: utf16Units rest1
            else alone
        | _ => alone
        end
      else if N.eqb (N.land n0 0xF0) 0xE0 then
        match rest0 with
        | b1 :: b2 :: rest2 =>
            if isContinuation b1 && isContinuation b2
            then String b0 (String b1 (String b2 EmptyString))
                 :: utf16Units rest2
            else alone
        | _ => alone
        end
      else if N.eqb (N.land n0 0xF8) 0xF0 then
        match rest0 with
        | b1 :: b2 :: b3 :: rest3 =>
            if isContinuation b1 && isContinuation b2 && isContinuation b3
            then
              let codePoint :=
                N.lor (N.shiftl (N.land n0 0x07) 18)
                  (N.lor (N.shiftl (continuationBits b1) 12)
                     (N.lor (N.shiftl (continuationBits b2) 6)
                        (continuationBits b3))) in
              let offset := (codePoint - 0x10000)%N in
              encodeUnit (0xD800 + N.shiftr offset 10)%N
              :: encodeUnit (0xDC00 + N.land offset 0x3FF)%N
              :: utf16Units rest3
            else alone
        | _ => alone
        end
      else alone
  end.

(** The own enumerable properties of a value that is neither [null] nor
    [undefined]: none for numbers and booleans, the indices for arrays
    and, code unit by code unit, for strings. *)
Definition ownEntries (data : JsValue) : list (string * JsValue) :=
  match data with
  | JString s =>
      imap (fun i unit => (indexKey i, JString unit))
           (utf16Units (String.list_ascii_of_string s))
  | JArray items => imap (fun i x => (indexKey i, x)) items
  | JObject props => props
  | _ => []
  end.

(** [Object.entries(data)]: a [TypeError] on [null] and [undefined]. *)
Definition objectEntries (data : JsValue) : M (list (string * JsValue)) :=
  match data with
  | JUndefined | JNull => throw TypeError
  | _ => ret (ownEntries data)
  end.

(** ** The source's constants *)

Definition coreSchemaUrn : string := "urn:ietf:params:scim:schemas:core:2.0:User".

Definition coreUserAttributesToIgnore : list string :=
  [ "userName"; "name"; "displayName"; "emails"; "active"; "externalId";
    "id"; "groups"; "meta"; "locale"; "password"; "phoneNumbers"; "photos";
    "profileUrl"; "timezone"; "title"; "addresses"; "entitlements"; "ims";
    "roles"; "x509Certificates" ].

(** ** The extraction procedure *)

(** The callback of [Object.entries(data).forEach] in [collectAttributes]. *)
Definition collectEntry (ignoreList : list string) (entry : string * JsValue)
  : M unit :=
  let '(customAttributeName, value) := entry in
  if bool_decide (customAttributeName ∈ ignoreList) then ret tt
  else if negb (truthy value) then
    logWarn ("Custom attribute " +:+ customAttributeName +:+ " is null. Ignoring it.")
  else
    let* existing := readAttribute customAttributeName in
    if lookupTruthy existing then
      logWarn ("Custom attribute " +:+ customAttributeName +:+
               " already exists. Might be coming from different namespace. Ignoring it.")
    else if typeofString value || isStringArray value then
      writeAttribute customAttributeName value
    else ret tt.

Definition collectEntries (ignoreList : list string)
    (entries : list (string * JsValue)) : M unit :=
  forEach (collectEntry ignoreList) entries.

Definition collectAttributes (data : JsValue) (ignoreList : list string) : M unit :=
  let* entries := objectEntries data in
  collectEntries ignoreList entries.

(** [const { schemas: _schemas, ...namespaceData } = raw] *)
Definition withoutSchemas (props : list (string * JsValue))
  : list (string * JsValue) :=
  filter (fun p => negb (String.eqb (fst p) "schemas")) props.

(** [schema === coreSchemaUrn] *)
Definition isCoreSchema (schema : JsValue) : bool :=
  match schema with
  | JString s => String.eqb s coreSchemaUrn
  | _ => false
  end.

(** What the module imports and the file under study does not define:
    [safeStringify] of [@calcom/lib/safeStringify] (a serializer that
    does not throw) and the constant [DIRECTORY_IDS_TO_LOG] of
    [@calcom/lib/constants]. *)
Record Imports : Type := {
  safeStringify : JsValue -> string;
  DIRECTORY_IDS_TO_LOG : list string
}.

Section Extraction.

Variable imports : Imports.

(** The callback of [raw.schemas.forEach]; [props] are the own
    properties of [raw]. *)
Definition visitSchema (props : list (string * JsValue)) (schema : JsValue)
  : M unit :=
  if isCoreSchema schema then
    collectAttributes (JObject (withoutSchemas props)) coreUserAttributesToIgnore
  else
    match schema with
    | JString namespaceName =>
        match getProperty (lookupOwn props namespaceName) namespaceName with
        | Own namespaceData =>
            if negb (truthy namespaceData) then
              logWarn ("Namespace data for " +:+ namespaceName +:+
                       " is null. Ignoring it.")
            else collectAttributes namespaceData []
        | Inherited =>
            (* a member of Object.prototype: truthy, without entries *)
            collectEntries [] []
        | Absent =>
            logWarn ("Namespace data for " +:+ namespaceName +:+
                     " is null. Ignoring it.")
        end
    | _ =>
        logError ("Namespace name is not a string " +:+ safeStringify imports schema)
    end.

(** The receiver and method of [raw.schemas.forEach]: reading [schemas]
    off [null] or [undefined] throws; off any other value that is not
    an object it gives [undefined]; and [forEach] is a function only
    when [raw.schemas] is an array. *)
Definition schemasOf (raw : JsValue)
  : M (list (string * JsValue) * list JsValue) :=
  match raw with
  | JObject props =>
      match getProperty (lookupOwn props "schemas") "schemas" with
      | Own (JArray schemas) => ret (props, schemas)
      | _ => throw TypeError
      end
  | _ => throw TypeError
  end.

Definition extractBody (ev : DirectorySyncEvent) (directoryId : string)
  : M (gmap string JsValue) :=
  if negb (String.eqb (event ev) "user.created")
     && negb (String.eqb (event ev) "user.updated") then
    let* _ := logError ("Unsupported event: " +:+ event ev) in
    currentAttributes
  else
    let* (props, schemas) := schemasOf (data_raw ev) in
    let* _ := forEach (visitSchema props) schemas in
    let* _ :=
      if bool_decide (directoryId ∈ DIRECTORY_IDS_TO_LOG imports) then
        let* attrs := currentAttributes in
        emit (ConsoleLog "Collected Attributes:" attrs)
      else ret tt in
    currentAttributes.

(** One call: [scimUserAttributes] starts as [{}]; the caller sees the
    completion and what the sink holds afterwards. *)
Definition getAttributesFromScimPayload (ev : DirectorySyncEvent)
    (directoryId : string) (logged : list LogEntry)
  : Completion (gmap string JsValue) * list LogEntry :=
  let '(result, st) :=
    extractBody ev directoryId {| scimUserAttributes := ∅; sink := logged |} in
  (result, sink st).

End Extraction.

(** ** Vocabulary of the properties *)

(** What [collectAttributes] records: a truthy value that is a string or
    an array of strings. *)
Definition accepted (v : JsValue) : bool :=
  truthy v && (typeofString v || isStringArray v).

(** A number, a boolean, a plain object, or an array with an element that
    is not a string. *)
Definition unsupportedShape (v : JsValue) : bool :=
  match v with
  | JNumber _ | JBool _ | JObject _ => true
  | JArray items => negb (forallb typeofString items)
  | _ => false
  end.

(** The fields that visiting one [schemas] entry hands to the collection
    callback past the ignore list: the root fields but [schemas] and the
    ignored names for the core URN, the entries of [raw[name]] for a
    namespace name whose data is truthy, nothing otherwise
    (see [visitSchema_candidateFields]). *)
Definition candidateFields (props : list (string * JsValue)) (schema : JsValue)
  : list (string * JsValue) :=
  if isCoreSchema schema then
    filter (fun p => negb (bool_decide (fst p ∈ coreUserAttributesToIgnore)))
           (withoutSchemas props)
  else
    match schema with
    | JString namespaceName =>
        match lookupOwn props namespaceName with
        | Some namespaceData =>
            if truthy namespaceData then ownEntries namespaceData else []
        | None => []
        end
    | _ => []
    end.

(** A [schemas] entry that is not a string, or that names a namespace
    whose own data in [raw] is missing or falsy. *)
Definition skippedEntry (props : list (string * JsValue)) (schema : JsValue)
  : bool :=
  match schema with
  | JString namespaceName =>
      negb (String.eqb namespaceName coreSchemaUrn)
      && match lookupOwn props namespaceName with
         | Some namespaceData => negb (truthy namespaceData)
         | None => true
         end
  | _ => true
  end.

(** The event kinds the extraction handles. *)
Definition supportedEvent (ev : DirectorySyncEvent) : bool :=
  String.eqb (event ev) "user.created" || String.eqb (event ev) "user.updated".

(** The state in which a call starts. *)
Definition initial (logged : list LogEntry) : State :=
  {| scimUserAttributes := ∅; sink := logged |}.

(** Two states that hold the same attributes, whatever has been logged. *)
Definition sameAttributes (st1 st2 : State) : Prop :=
  scimUserAttributes st1 = scimUserAttributes st2.

(** A computation whose completion and attributes do not depend on the
    sink. *)
Definition sinkBlind {A} (m : M A) : Prop :=
  forall st1 st2, sameAttributes st1 st2 ->
    fst (m st1) = fst (m st2) /\ sameAttributes (snd (m st1)) (snd (m st2)).

(** A computation that completes normally from every state. *)
Definition neverThrows {A} (m : M A) : Prop :=
  forall st, exists a, fst (m st) = Normal a.

(** A computation that relates every state to the state it leaves. *)
Definition respects {A} (R : State -> State -> Prop) (m : M A) : Prop :=
  forall st, R st (snd (m st)).

(** Bindings with a truthy value are kept. *)
Definition keepsTruthy (st st' : State) : Prop :=
  forall k v, scimUserAttributes st !! k = Some v -> truthy v = true ->
    scimUserAttributes st' !! k = Some v.

(** The binding of [k] is unchanged. *)
Definition sameAt (k : string) (st st' : State) : Prop :=
  scimUserAttributes st' !! k = scimUserAttributes st !! k.

(** A name that is unbound stays unbound. *)
Definition staysUnbound (k : string) (st st' : State) : Prop :=
  scimUserAttributes st !! k = None -> scimUserAttributes st' !! k = None.

(** Every recorded value is an accepted one. *)
Definition allAccepted (st : State) : Prop :=
  forall k v, scimUserAttributes st !! k = Some v -> accepted v = true.

(** ** Sample events *)

(** Stand-ins for the imports, for closed examples. *)
Definition exampleImports : Imports :=
  {| safeStringify := fun _ => "[value]";
     DIRECTORY_IDS_TO_LOG := ["dir-verbose"] |}.

Definition scenarioRaw : JsValue :=
  JObject
    [ ("schemas",
       JArray [JString coreSchemaUrn; JString "segment"; JString "territory"]);
      ("userName", JString "a@b.com");
      ("segment", JObject [("segment", JString "SMB")]);
      ("territory", JObject [("territory", JString "NAM")]) ].

Definition userCreated : DirectorySyncEvent :=
  {| event := "user.created"; data_raw := scenarioRaw |}.

Definition userDeleted : DirectorySyncEvent :=
  {| event := "user.deleted"; data_raw := scenarioRaw |}.

(** A document without [schemas]. *)
Definition noSchemas : DirectorySyncEvent :=
  {| event := "user.created";
     data_raw := JObject [("userName", JString "a@b.com")] |}.

(** Two namespaces with a field [level]; the first holds the empty string. *)
Definition emptyFirstProps : list (string * JsValue) :=
  [ ("schemas", JArray [JString "a"; JString "b"]);
    ("a", JObject [("level", JString "")]);
    ("b", JObject [("level", JString "senior")]) ].

Definition emptyFirst : DirectorySyncEvent :=
  {| event := "user.created"; data_raw := JObject emptyFirstProps |}.

(** Two namespaces with a field [level], both holding a valid value. *)
Definition levelTwiceProps : list (string * JsValue) :=
  [ ("schemas", JArray [JString "a"; JString "b"]);
    ("a", JObject [("level", JString "junior")]);
    ("b", JObject [("level", JString "senior"); ("grade", JString "G7")]) ].

Definition levelTwice : DirectorySyncEvent :=
  {| event := "user.created"; data_raw := JObject levelTwiceProps |}.

(** The core namespace and a custom one both carry [title]. *)
Definition titleTwiceProps : list (string * JsValue) :=
  [ ("schemas", JArray [JString coreSchemaUrn; JString "hr"]);
    ("title", JString "VP");
    ("nickname", JString "Bob");
    ("hr", JObject [("title", JString "Director")]) ].

Definition titleTwice : DirectorySyncEvent :=
  {| event := "user.updated"; data_raw := JObject titleTwiceProps |}.

(** A custom attribute named as a member of [Object.prototype]. *)
Definition constructorField : DirectorySyncEvent :=
  {| event := "user.created";
     data_raw := JObject
       [ ("schemas", JArray [JString "segment"]);
         ("segment", JObject [("constructor", JArray [])]) ] |}.

(** A number next to an array of strings; [custom] is listed but missing. *)
Definition scoreProps : list (string * JsValue) :=
  [ ("schemas", JArray [JString "custom"; JString "segment"]);
    ("segment",
     JObject [ ("score", JNumber 42%float);
               ("segment", JArray [JString "SMB"; JString "Enterprise"]) ]) ].

Definition scoreEvent : DirectorySyncEvent :=
  {| event := "user.created"; data_raw := JObject scoreProps |}.

(** ** Vocabulary of the further properties *)

(** Reference reading of the collection: the value of the first field
    named [k] that holds an accepted value. *)
Fixpoint firstAcceptedField (k : string) (entries : list (string * JsValue))
  : option JsValue :=
  match entries with
  | [] => None
  | (name, value) :: rest =>
      if String.eqb name k && accepted value then Some value
      else firstAcceptedField k rest
  end.

(** The candidate fields of the [schemas] entries, in the order of the
    walk. *)
Definition offeredFields (props : list (string * JsValue))
    (schemas : list JsValue) : list (string * JsValue) :=
  concat (map (candidateFields props) schemas).

(** What the console receives, as opposed to the logger. *)
Definition isConsoleLog (e : LogEntry) : bool :=
  match e with
  | ConsoleLog _ _ => true
  | _ => false
  end.

(** The sink grows by logger entries only. *)
Definition logsOnly (st st' : State) : Prop :=
  exists new, sink st' = (sink st ++ new)%list
              /\ Forall (fun e => isConsoleLog e = false) new.

(** A field the collection callback passes over without a word: its
    name is on the ignore list, or its value is truthy and of an
    unsupported shape while the name does not read as present. *)
Definition passedOverSilently (ignoreList : list string) (st : State)
    (entry : string * JsValue) : bool :=
  bool_decide (fst entry ∈ ignoreList)
  || (truthy (snd entry) && unsupportedShape (snd entry)
      && negb (lookupTruthy
                 (getProperty (scimUserAttributes st !! fst entry) (fst entry)))).

(** Every bound value is truthy. *)
Definition allTruthy (st : State) : Prop :=
  forall k v, scimUserAttributes st !! k = Some v -> truthy v = true.

(** The document of the source's doc comment. *)
Definition documentedProps : list (string * JsValue) :=
  [ ("schemas",
     JArray [JString coreSchemaUrn; JString "segment"; JString "territory"]);
    ("userName", JString "member@samldemo.com");
    ("name", JObject [ ("givenName", JString "Member SAML Demo");
                       ("familyName", JString "Member SAML Demo") ]);
    ("emails", JArray [JObject [ ("primary", JBool true);
                                 ("value", JString "member@samldemo.com") ]]);
    ("displayName", JString "Member SAML Demo");
    ("territory", JObject [("territory", JString "NAM")]);
    ("segment", JObject [("segment", JString "SMB")]);
    ("externalId", JString "00ukzk1wrsKZqofit5d7");
    ("groups", JArray []);
    ("active", JBool true);
    ("id", JString "b36ba9fa-783b-44e6-a770-a652cb9d71ba") ].

Definition documentedEvent : DirectorySyncEvent :=
  {| event := "user.updated"; data_raw := JObject documentedProps |}.

(** A namespace whose data is a string of two characters outside ASCII. *)
Definition kanjiProps : list (string * JsValue) :=
  [ ("schemas", JArray [JString "ns"]); ("ns", JString "日本") ].

Definition kanjiEvent : DirectorySyncEvent :=
  {| event := "user.created"; data_raw := JObject kanjiProps |}.

(** The core URN listed twice around a custom namespace. *)
Definition repeatedProps : list (string * JsValue) :=
  [ ("schemas",
     JArray [JString "hr"; JString coreSchemaUrn; JString "hr"]);
    ("nickname", JString "Bob");
    ("hr", JObject [("title", JString "Director"); ("grade", JNumber 0%float)]) ].

Definition repeatedEvent : DirectorySyncEvent :=
  {| event := "user.created"; data_raw := JObject repeatedProps |}.

(** ** The monad *)

Lemma bind_fst_normal {A B} (m : M A) (k : A -> M B) st a :
  fst (m st) = Normal a -> bind m k st = k a (snd (m st)).
Proof. unfold bind. destruct (m st) as [[a'|e] st']; simpl; congruence. Qed.

Lemma bind_fst_throw {A B} (m : M A) (k : A -> M B) st e :
  fst (m st) = Throw e -> bind m k st = (Throw e, snd (m st)).
Proof. unfold bind. destruct (m st) as [[a'|e'] st']; simpl; congruence. Qed.

Lemma neverThrows_bind {A B} (m : M A) (k : A -> M B) :
  neverThrows m -> (forall a, neverThrows (k a)) -> neverThrows (bind m k).
Proof.
  intros Hm Hk st. destruct (Hm st) as [a Ha].
  rewrite (bind_fst_normal _ _ _ _ Ha). apply Hk.
Qed.

Lemma neverThrows_forEach {X} (f : X -> M unit) (l : list X) :
  (forall x, neverThrows (f x)) -> neverThrows (forEach f l).
Proof.
  intros Hf. induction l as [|x l IH]; simpl.
  - intros st. by exists tt.
  - apply neverThrows_bind; [apply Hf | intros _; apply IH].
Qed.

Lemma respects_bind {A B} (R : State -> State -> Prop) `{!Transitive R}
    (m : M A) (k : A -> M B) :
  respects R m -> (forall a, respects R (k a)) -> respects R (bind m k).
Proof.
  intros Hm Hk st. unfold bind. specialize (Hm st).
  destruct (m st) as [[a|e] st']; simpl in *; [|done].
  etrans; [exact Hm | apply Hk].
Qed.

Lemma respects_forEach {X} (R : State -> State -> Prop)
    `{!Reflexive R} `{!Transitive R} (f : X -> M unit) (l : list X) :
  (forall x, x ∈ l -> respects R (f x)) -> respects R (forEach f l).
Proof.
  induction l as [|x l IH]; intros Hf; simpl.
  - intros st. simpl. reflexivity.
  - apply respects_bind; [done | apply Hf; left | intros _; apply IH].
    intros y Hy. apply Hf. by right.
Qed.

Lemma sinkBlind_bind {A B} (m : M A) (k : A -> M B) :
  sinkBlind m -> (forall a, sinkBlind (k a)) -> sinkBlind (bind m k).
Proof.
  intros Hm Hk st1 st2 Hs. destruct (Hm st1 st2 Hs) as [Hc Hs'].
  unfold bind. destruct (m st1) as [[a1|e1] st1'], (m st2) as [[a2|e2] st2'];
    simpl in *; try discriminate.
  - inversion Hc; subst. by apply Hk.
  - split; [congruence | done].
Qed.

Lemma sinkBlind_forEach {X} (f : X -> M unit) (l : list X) :
  (forall x, sinkBlind (f x)) -> sinkBlind (forEach f l).
Proof.
  intros Hf. induction l as [|x l IH]; simpl.
  - intros st1 st2 Hs. by split.
  - apply sinkBlind_bind; [apply Hf | intros _; apply IH].
Qed.

Lemma sinkBlind_emit e : sinkBlind (emit e).
Proof. intros st1 st2 Hs. by split. Qed.

Lemma neverThrows_emit e : neverThrows (emit e).
Proof. intros st. by exists tt. Qed.

#[local] Instance keepsTruthy_refl : Reflexive keepsTruthy.
Proof. by intros st k v. Qed.

#[local] Instance keepsTruthy_trans : Transitive keepsTruthy.
Proof. intros s1 s2 s3 H12 H23 k v Hk Hv. apply H23; [by apply H12 | done]. Qed.

#[local] Instance sameAt_refl k : Reflexive (sameAt k).
Proof. by intros st. Qed.

#[local] Instance sameAt_trans k : Transitive (sameAt k).
Proof. intros s1 s2 s3 H12 H23. unfold sameAt in *. congruence. Qed.

#[local] Instance staysUnbound_refl k : Reflexive (staysUnbound k).
Proof. intros st Hk. exact Hk. Qed.

#[local] Instance staysUnbound_trans k : Transitive (staysUnbound k).
Proof. unfold staysUnbound. intros s1 s2 s3 H12 H23 Hk. by apply H23, H12. Qed.

#[local] Instance sameAttributes_refl : Reflexive sameAttributes.
Proof. by intros st. Qed.

#[local] Instance sameAttributes_trans : Transitive sameAttributes.
Proof. intros s1 s2 s3 H12 H23. unfold sameAttributes in *. congruence. Qed.

(** ** One entry of a namespace *)

Lemma collectEntry_cases ign k v st :
  fst (collectEntry ign (k, v) st) = Normal tt /\
  (scimUserAttributes (snd (collectEntry ign (k, v) st)) = scimUserAttributes st
   \/ ((k ∉ ign) /\ accepted v = true
       /\ lookupTruthy (getProperty (scimUserAttributes st !! k) k) = false
       /\ scimUserAttributes (snd (collectEntry ign (k, v) st))
          = <[k := v]> (scimUserAttributes st))).
Proof.
  unfold collectEntry, accepted. case_bool_decide as Hign; [by split; [|left]|].
  destruct (truthy v) eqn:Hv; simpl; [|by split; [|left]].
  unfold bind, readAttribute.
  destruct (lookupTruthy _) eqn:Hl; [by split; [|left]|].
  destruct (typeofString v || isStringArray v) eqn:Hs; [|by split; [|left]].
  split; [done|]. right. by repeat split.
Qed.

Lemma collectEntry_writes ign k v st :
  k ∉ ign -> accepted v = true ->
  lookupTruthy (getProperty (scimUserAttributes st !! k) k) = false ->
  scimUserAttributes (snd (collectEntry ign (k, v) st))
  = <[k := v]> (scimUserAttributes st).
Proof.
  intros Hign Hacc Hl. unfold accepted in Hacc.
  apply andb_prop in Hacc as [Hv Hs].
  unfold collectEntry. rewrite bool_decide_eq_false_2 by done.
  rewrite Hv. simpl. unfold bind, readAttribute. by rewrite Hl, Hs.
Qed.

Lemma neverThrows_collectEntry ign e : neverThrows (collectEntry ign e).
Proof. destruct e as [k v]. intros st. exists tt. apply collectEntry_cases. Qed.

Lemma sinkBlind_collectEntry ign e : sinkBlind (collectEntry ign e).
Proof.
  destruct e as [k v]. intros st1 st2 Hs. unfold sameAttributes in *.
  unfold collectEntry. case_bool_decide; [by split|].
  destruct (truthy v); simpl; [|by split].
  unfold bind, readAttribute. rewrite Hs.
  destruct (lookupTruthy _); [by split|].
  destruct (typeofString v || isStringArray v); [|by split].
  split; [done|]. simpl. by rewrite Hs.
Qed.

Lemma accepted_truthy v : accepted v = true -> truthy v = true.
Proof. unfold accepted. by intros [? _]%andb_prop. Qed.

Lemma keepsTruthy_collectEntry ign e : respects keepsTruthy (collectEntry ign e).
Proof.
  destruct e as [k v]. intros st k' v' Hk' Hv'.
  destruct (collectEntry_cases ign k v st) as [_ [-> | (_ & _ & Hl & ->)]]; [done|].
  destruct (decide (k = k')) as [<-|Hne]; [|by rewrite lookup_insert_ne].
  rewrite Hk' in Hl. simpl in Hl. congruence.
Qed.

Lemma sameAt_collectEntry k ign e :
  (fst e ≠ k) \/ (fst e ∈ ign) \/ accepted (snd e) = false ->
  respects (sameAt k) (collectEntry ign e).
Proof.
  destruct e as [k0 v]. intros Hcase st. simpl in Hcase. unfold sameAt.
  destruct (collectEntry_cases ign k0 v st) as [_ [-> | (Hign & Hacc & _ & ->)]]; [done|].
  destruct Hcase as [Hne | [Hin | Hrej]];
    [by rewrite lookup_insert_ne | done | congruence].
Qed.

(** Where a binding found after an entry comes from. *)
Lemma collectEntry_origin ign k v st k' v' :
  scimUserAttributes (snd (collectEntry ign (k, v) st)) !! k' = Some v' ->
  scimUserAttributes st !! k' = Some v'
  \/ (k' = k /\ v' = v /\ (k ∉ ign) /\ accepted v = true).
Proof.
  destruct (collectEntry_cases ign k v st)
    as [_ [-> | (Hign & Hacc & _ & ->)]]; [by left|].
  destruct (decide (k = k')) as [<-|Hne].
  - rewrite lookup_insert_eq. intros [= <-]. by right.
  - rewrite lookup_insert_ne by done. by left.
Qed.

(** A name that [Object.prototype] carries reads as present on the result
    object, so the callback never binds it. *)
Lemma staysUnbound_collectEntry k ign e :
  k ∈ objectPrototypeKeys -> respects (staysUnbound k) (collectEntry ign e).
Proof.
  destruct e as [k0 v]. intros Hk st Hnone.
  destruct (collectEntry_cases ign k0 v st)
    as [_ [-> | (_ & _ & Hl & ->)]]; [done|].
  destruct (decide (k0 = k)) as [->|Hne]; [|by rewrite lookup_insert_ne].
  rewrite Hnone in Hl. unfold getProperty in Hl.
  by rewrite bool_decide_eq_true_2 in Hl.
Qed.

(** ** The entries of one namespace *)

Lemma forEach_cons {X} (f : X -> M unit) x l st :
  fst (f x st) = Normal tt ->
  forEach f (x :: l) st = forEach f l (snd (f x st)).
Proof. intros H. simpl. by rewrite (bind_fst_normal _ _ _ _ H). Qed.

Lemma forEach_app {X} (f : X -> M unit) l1 l2 st :
  (forall x, neverThrows (f x)) ->
  forEach f (l1 ++ l2) st = forEach f l2 (snd (forEach f l1 st)).
Proof.
  intros Hf. revert st. induction l1 as [|x l1 IH]; intros st; [done|].
  destruct (Hf x st) as [[] Hx]. simpl app.
  rewrite !(forEach_cons _ _ _ _ Hx). apply IH.
Qed.

Lemma neverThrows_collectEntries ign entries :
  neverThrows (collectEntries ign entries).
Proof. apply neverThrows_forEach. intros e. apply neverThrows_collectEntry. Qed.

Lemma collectEntries_normal ign entries st :
  fst (collectEntries ign entries st) = Normal tt.
Proof. by destruct (neverThrows_collectEntries ign entries st) as [[] H]. Qed.

Lemma sinkBlind_collectEntries ign entries :
  sinkBlind (collectEntries ign entries).
Proof. apply sinkBlind_forEach. intros e. apply sinkBlind_collectEntry. Qed.

Lemma keepsTruthy_collectEntries ign entries :
  respects keepsTruthy (collectEntries ign entries).
Proof.
  apply respects_forEach; try apply _. intros e _. apply keepsTruthy_collectEntry.
Qed.

Lemma staysUnbound_collectEntries k ign entries :
  k ∈ objectPrototypeKeys ->
  respects (staysUnbound k) (collectEntries ign entries).
Proof.
  intros Hk. apply respects_forEach; try apply _.
  intros e _. by apply staysUnbound_collectEntry.
Qed.

Lemma sameAt_collectEntries k ign entries :
  (forall e, e ∈ entries ->
     (fst e ≠ k) \/ (fst e ∈ ign) \/ accepted (snd e) = false) ->
  respects (sameAt k) (collectEntries ign entries).
Proof.
  intros H. apply respects_forEach; try apply _.
  intros e He. by apply sameAt_collectEntry, H.
Qed.

Lemma collectEntries_origin ign entries st k v :
  scimUserAttributes (snd (collectEntries ign entries st)) !! k = Some v ->
  scimUserAttributes st !! k = Some v
  \/ ((k, v) ∈ entries /\ (k ∉ ign) /\ accepted v = true).
Proof.
  unfold collectEntries. revert st.
  induction entries as [|[k0 v0] entries IH]; intros st; [by left|].
  rewrite forEach_cons by apply collectEntry_cases.
  intros [Hprev | (Hin & Hign & Hacc)]%IH.
  - apply collectEntry_origin in Hprev as [Hst | (-> & -> & Hign & Hacc)]; [by left|].
    right. split; [left | done].
  - right. split; [by right | done].
Qed.

(** The first entry of a name that passes every test is the one recorded. *)
Lemma collectEntries_records ign before k v after st :
  k ∉ map fst before -> k ∉ ign -> accepted v = true ->
  lookupTruthy (getProperty (scimUserAttributes st !! k) k) = false ->
  scimUserAttributes (snd (collectEntries ign (before ++ (k, v) :: after) st)) !! k
  = Some v.
Proof.
  intros Hfresh Hign Hacc Hl. unfold collectEntries.
  rewrite forEach_app by (intros e; apply neverThrows_collectEntry).
  rewrite forEach_cons by apply collectEntry_cases.
  assert (Hsame : sameAt k st (snd (forEach (collectEntry ign) before st))).
  { apply sameAt_collectEntries. intros e He. left. intros Heq.
    apply Hfresh. rewrite list_elem_of_fmap. by exists e. }
  unfold sameAt in Hsame.
  apply (keepsTruthy_collectEntries ign after); [|by apply accepted_truthy].
  rewrite collectEntry_writes; [apply lookup_insert_eq | done | done |].
  by rewrite Hsame.
Qed.

Lemma collectEntries_filter ign entries st :
  collectEntries []
    (filter (fun p => negb (bool_decide (fst p ∈ ign))) entries) st
  = collectEntries ign entries st.
Proof.
  unfold collectEntries. revert st.
  induction entries as [|[k v] entries IH]; intros st; [done|].
  rewrite filter_cons. destruct (bool_decide (k ∈ ign)) eqn:Hk.
  - rewrite decide_False by (simpl; rewrite Hk; simpl; tauto).
    assert (Heq : collectEntry ign (k, v) st = (Normal tt, st)).
    { unfold collectEntry. by rewrite Hk. }
    rewrite IH, (forEach_cons _ (k, v)) by apply collectEntry_cases.
    by rewrite Heq.
  - rewrite decide_True by (simpl; by rewrite Hk).
    assert (Heq : collectEntry [] (k, v) st = collectEntry ign (k, v) st).
    { unfold collectEntry. rewrite Hk.
      rewrite bool_decide_eq_false_2 by apply not_elem_of_nil. done. }
    rewrite !forEach_cons by apply collectEntry_cases.
    rewrite Heq. apply IH.
Qed.

Lemma collectAttributes_entries data ign :
  data ≠ JUndefined -> data ≠ JNull ->
  collectAttributes data ign = collectEntries ign (ownEntries data).
Proof. intros H1 H2. by destruct data. Qed.

Lemma truthy_not_nullish data :
  truthy data = true -> data ≠ JUndefined /\ data ≠ JNull.
Proof. by destruct data. Qed.

Lemma sinkBlind_pure {A} (c : Completion A) : sinkBlind (fun st => (c, st)).
Proof. intros st1 st2 Hs. by split. Qed.

Lemma sinkBlind_collectAttributes data ign : sinkBlind (collectAttributes data ign).
Proof.
  apply sinkBlind_bind.
  - destruct data; apply sinkBlind_pure.
  - intros entries. apply sinkBlind_collectEntries.
Qed.

(** ** One [schemas] entry *)

Section Properties.

Variable imports : Imports.

Abbreviation visit := (visitSchema imports).
Abbreviation extract := (getAttributesFromScimPayload imports).

(** Visiting an entry never throws, and acts on the attributes as the
    collection callback run over the entry's candidate fields. *)
Lemma visitSchema_candidateFields props schema st :
  fst (visit props schema st) = Normal tt /\
  scimUserAttributes (snd (visit props schema st))
  = scimUserAttributes
      (snd (collectEntries [] (candidateFields props schema) st)).
Proof.
  unfold visitSchema, candidateFields.
  destruct (isCoreSchema schema) eqn:Hcore.
  - rewrite collectAttributes_entries by done. simpl ownEntries.
    rewrite collectEntries_filter. split; [apply collectEntries_normal | done].
  - destruct schema as [| | | |namespaceName| |]; try (by split).
    unfold getProperty.
    destruct (lookupOwn props namespaceName) as [namespaceData|].
    + destruct (truthy namespaceData) eqn:Hdata; simpl; [|by split].
      destruct (truthy_not_nullish _ Hdata) as [H1 H2].
      rewrite collectAttributes_entries by done.
      split; [apply collectEntries_normal | done].
    + case_bool_decide; by split.
Qed.

Lemma neverThrows_visitSchema props schema : neverThrows (visit props schema).
Proof. intros st. exists tt. apply visitSchema_candidateFields. Qed.

Lemma sinkBlind_visitSchema props schema : sinkBlind (visit props schema).
Proof.
  unfold visitSchema. destruct (isCoreSchema schema).
  - apply sinkBlind_collectAttributes.
  - destruct schema; try apply sinkBlind_emit.
    destruct (getProperty _ _); [|apply sinkBlind_collectEntries|apply sinkBlind_emit].
    destruct (negb _); [apply sinkBlind_emit | apply sinkBlind_collectAttributes].
Qed.

Lemma keepsTruthy_visitSchema props schema :
  respects keepsTruthy (visit props schema).
Proof.
  intros st k v Hk Hv.
  destruct (visitSchema_candidateFields props schema st) as [_ ->].
  by apply (keepsTruthy_collectEntries [] (candidateFields props schema) st).
Qed.

Lemma staysUnbound_visitSchema k props schema :
  k ∈ objectPrototypeKeys -> respects (staysUnbound k) (visit props schema).
Proof.
  intros Hk st Hnone.
  destruct (visitSchema_candidateFields props schema st) as [_ ->].
  by apply (staysUnbound_collectEntries k [] (candidateFields props schema)).
Qed.

Lemma visitSchema_origin props schema st k v :
  scimUserAttributes (snd (visit props schema st)) !! k = Some v ->
  scimUserAttributes st !! k = Some v
  \/ ((k, v) ∈ candidateFields props schema /\ accepted v = true).
Proof.
  destruct (visitSchema_candidateFields props schema st) as [_ ->].
  intros [H | (Hin & _ & Hacc)]%collectEntries_origin; [by left | by right].
Qed.

Lemma sameAt_visitSchema k props schema :
  (forall v, (k, v) ∈ candidateFields props schema -> accepted v = false) ->
  respects (sameAt k) (visit props schema).
Proof.
  intros H st. unfold sameAt.
  destruct (visitSchema_candidateFields props schema st) as [_ ->].
  apply (sameAt_collectEntries k [] (candidateFields props schema)).
  intros [k0 v0] He. destruct (decide (k0 = k)) as [->|Hne]; [|by left].
  right. right. by apply H.
Qed.

Lemma candidateFields_skipped props schema :
  skippedEntry props schema = true -> candidateFields props schema = [].
Proof.
  unfold skippedEntry, candidateFields, isCoreSchema.
  destruct schema as [| | | |namespaceName| |]; try done.
  destruct (String.eqb namespaceName coreSchemaUrn); [done|]. simpl.
  destruct (lookupOwn props namespaceName) as [namespaceData|]; [|done].
  by destruct (truthy namespaceData).
Qed.

(** ** The walk over [raw.schemas] *)

Lemma neverThrows_walk props schemas : neverThrows (forEach (visit props) schemas).
Proof. apply neverThrows_forEach. intros x. apply neverThrows_visitSchema. Qed.

Lemma walk_normal props schemas st :
  fst (forEach (visit props) schemas st) = Normal tt.
Proof. by destruct (neverThrows_walk props schemas st) as [[] H]. Qed.

Lemma sinkBlind_walk props schemas : sinkBlind (forEach (visit props) schemas).
Proof. apply sinkBlind_forEach. intros x. apply sinkBlind_visitSchema. Qed.

Lemma keepsTruthy_walk props schemas :
  respects keepsTruthy (forEach (visit props) schemas).
Proof.
  apply respects_forEach; try apply _. intros x _. apply keepsTruthy_visitSchema.
Qed.

Lemma staysUnbound_walk k props schemas :
  k ∈ objectPrototypeKeys ->
  respects (staysUnbound k) (forEach (visit props) schemas).
Proof.
  intros Hk. apply respects_forEach; try apply _.
  intros x _. by apply staysUnbound_visitSchema.
Qed.

Lemma walk_origin props schemas st k v :
  scimUserAttributes (snd (forEach (visit props) schemas st)) !! k = Some v ->
  scimUserAttributes st !! k = Some v
  \/ exists schema, schema ∈ schemas
       /\ (k, v) ∈ candidateFields props schema /\ accepted v = true.
Proof.
  revert st. induction schemas as [|schema schemas IH]; intros st; [by left|].
  rewrite forEach_cons by apply visitSchema_candidateFields.
  intros [Hprev | (s & Hs & Hin)]%IH.
  - apply visitSchema_origin in Hprev as [Hst | Hin]; [by left|].
    right. exists schema. split; [left | done].
  - right. exists s. split; [by right | done].
Qed.

Lemma walk_app props pre post st :
  forEach (visit props) (pre ++ post) st
  = forEach (visit props) post (snd (forEach (visit props) pre st)).
Proof. apply forEach_app. intros x. apply neverThrows_visitSchema. Qed.

(** ** The whole call *)

Lemma extract_unsupported ev directoryId logged :
  supportedEvent ev = false ->
  extract ev directoryId logged
  = (Normal ∅,
     (logged ++ [LogError tag ("Unsupported event: " +:+ event ev)])%list).
Proof.
  unfold supportedEvent. intros [H1 H2]%orb_false_elim.
  unfold getAttributesFromScimPayload, extractBody. by rewrite H1, H2.
Qed.

Lemma extract_supported ev directoryId logged props schemas :
  supportedEvent ev = true ->
  data_raw ev = JObject props ->
  lookupOwn props "schemas" = Some (JArray schemas) ->
  fst (extract ev directoryId logged)
  = Normal (scimUserAttributes
              (snd (forEach (visit props) schemas (initial logged)))).
Proof.
  unfold supportedEvent. intros Hsup Hraw Hschemas.
  unfold getAttributesFromScimPayload, extractBody.
  replace (negb (String.eqb (event ev) "user.created")
           && negb (String.eqb (event ev) "user.updated")) with false
    by (by destruct (String.eqb _ _), (String.eqb _ _)).
  rewrite Hraw. unfold schemasOf. rewrite Hschemas. simpl getProperty.
  unfold bind at 1. unfold ret at 1.
  unfold bind at 1. fold (initial logged).
  pose proof (walk_normal props schemas (initial logged)) as Hn.
  destruct (forEach (visit props) schemas (initial logged)) as [[[]|e] st];
    simpl in Hn; [|done].
  simpl. by case_bool_decide.
Qed.

Lemma extract_throws ev directoryId logged :
  supportedEvent ev = true ->
  (forall props schemas, data_raw ev = JObject props ->
     lookupOwn props "schemas" ≠ Some (JArray schemas)) ->
  extract ev directoryId logged = (Throw TypeError, logged).
Proof.
  unfold supportedEvent. intros Hsup Hraw.
  unfold getAttributesFromScimPayload, extractBody.
  replace (negb (String.eqb (event ev) "user.created")
           && negb (String.eqb (event ev) "user.updated")) with false
    by (by destruct (String.eqb _ _), (String.eqb _ _)).
  destruct (data_raw ev) as [| | | | | |props] eqn:Hr; try done.
  unfold schemasOf, getProperty.
  destruct (lookupOwn props "schemas") as [[| | | | |schemas|]|] eqn:Hs; try done.
  by destruct (Hraw props schemas).
Qed.

End Properties.

Lemma unsupportedShape_rejected v : unsupportedShape v = true -> accepted v = false.
Proof.
  unfold accepted.
  destruct v as [| | | | |items|]; simpl; try done;
    try (intros _; apply andb_false_r).
  by intros ->%negb_true_iff.
Qed.

Lemma accepted_shape v :
  accepted v = true ->
  (exists s, v = JString s /\ s ≠ "")
  \/ (exists items, v = JArray items
        /\ Forall (fun x => exists s, x = JString s) items).
Proof.
  unfold accepted. intros [Ht Hall]%andb_prop.
  destruct v as [| | | |s|items|]; simpl in *; try done.
  - apply negb_true_iff, String.eqb_neq in Ht. left. eauto.
  - right. exists items. split; [done|].
    clear Ht. induction items as [|x items IH]; [by constructor|].
    simpl in Hall. apply andb_prop in Hall as [Hx Hrest].
    constructor; [|by apply IH].
    destruct x; try (by discriminate Hx); eauto.
Qed.

Lemma fresh_name_reads_falsy (m : gmap string JsValue) k :
  k ∉ objectPrototypeKeys -> m !! k = None ->
  lookupTruthy (getProperty (m !! k) k) = false.
Proof.
  intros Hk ->. unfold getProperty. by rewrite bool_decide_eq_false_2.
Qed.

(** An empty array under a fresh name that [Object.prototype] does not
    carry is recorded as it is. *)
Lemma empty_array_recorded ign before k after st :
  k ∉ map fst before -> k ∉ ign -> k ∉ objectPrototypeKeys ->
  scimUserAttributes st !! k = None ->
  scimUserAttributes
    (snd (collectEntries ign (before ++ (k, JArray []) :: after) st)) !! k
  = Some (JArray []).
Proof.
  intros Hfresh Hign Hproto Hnone.
  apply collectEntries_records; [done | done | done |].
  by apply fresh_name_reads_falsy.
Qed.

(** ** Properties of the extraction *)

Section Claims.

Variable imports : Imports.

(** C1. An event whose kind is neither "user.created" nor "user.updated"
    makes the call return the empty map at once, one error logged,
    whatever [data.raw] holds. *)
Theorem unsupported_event_returns_empty ev directoryId logged :
  event ev ≠ "user.created" -> event ev ≠ "user.updated" ->
  getAttributesFromScimPayload imports ev directoryId logged
  = (Normal ∅,
     (logged ++ [LogError tag ("Unsupported event: " +:+ event ev)])%list).
Proof.
  intros H1%String.eqb_neq H2%String.eqb_neq.
  apply extract_unsupported. unfold supportedEvent. by rewrite H1, H2.
Qed.

(** C2, as amended. The call returns normally, with an attribute map,
    exactly when the event kind is unsupported or [data.raw] is an
    object whose own [schemas] property is an array; on every other
    input [raw.schemas.forEach] throws a TypeError. *)
Theorem returns_normally_iff_schemas_array ev directoryId logged :
  (supportedEvent ev = false
   \/ (exists props schemas, data_raw ev = JObject props
         /\ lookupOwn props "schemas" = Some (JArray schemas)) ->
   exists out,
     fst (getAttributesFromScimPayload imports ev directoryId logged)
     = Normal out)
  /\ (~ (supportedEvent ev = false
        \/ (exists props schemas, data_raw ev = JObject props
              /\ lookupOwn props "schemas" = Some (JArray schemas))) ->
      getAttributesFromScimPayload imports ev directoryId logged
      = (Throw TypeError, logged)).
Proof.
  split.
  - intros [Hun | (props & schemas & Hraw & Hs)].
    + rewrite extract_unsupported by done. by eexists.
    + destruct (supportedEvent ev) eqn:Hsup.
      * rewrite (extract_supported _ _ _ _ _ _ Hsup Hraw Hs). by eexists.
      * rewrite extract_unsupported by done. by eexists.
  - intros Hnot. apply extract_throws.
    + destruct (supportedEvent ev); [done|]. destruct Hnot. by left.
    + intros props schemas Hraw Hs. apply Hnot. right. eauto.
Qed.

(** C9. Two calls with the same event and directory identifier complete
    alike and with the same attribute map, the second started with
    whatever the first has left in the log. *)
Theorem extraction_is_repeatable ev directoryId logged :
  fst (getAttributesFromScimPayload imports ev directoryId
         (snd (getAttributesFromScimPayload imports ev directoryId logged)))
  = fst (getAttributesFromScimPayload imports ev directoryId logged)
  /\ forall logged',
       fst (getAttributesFromScimPayload imports ev directoryId logged')
       = fst (getAttributesFromScimPayload imports ev directoryId logged).
Proof.
  assert (H : forall l1 l2,
    fst (getAttributesFromScimPayload imports ev directoryId l1)
    = fst (getAttributesFromScimPayload imports ev directoryId l2)).
  { intros l1 l2. destruct (supportedEvent ev) eqn:Hsup.
    - destruct (data_raw ev) as [| | | | | |props] eqn:Hraw;
        try (by rewrite !extract_throws by (done || by rewrite Hraw)).
      destruct (lookupOwn props "schemas") as [[| | | | |schemas|]|] eqn:Hs;
        try (by rewrite !extract_throws
               by (done || (rewrite Hraw; intros ?? [= <-]; by rewrite Hs))).
      rewrite !(extract_supported _ _ _ _ _ _ Hsup Hraw Hs). f_equal.
      by apply sinkBlind_walk.
    - by rewrite !extract_unsupported. }
  split; [apply H | intros l; apply H].
Qed.

Lemma initial_lookup logged (k : string) :
  scimUserAttributes (initial logged) !! k = None.
Proof. apply lookup_empty. Qed.

Lemma walk_allAccepted props schemas logged :
  allAccepted
    (snd (forEach (visitSchema imports props) schemas (initial logged))).
Proof.
  intros k v [Hinit | (schema & _ & _ & Hacc)]%walk_origin; [|done].
  by rewrite initial_lookup in Hinit.
Qed.

Lemma extract_normal_inv ev directoryId logged out :
  fst (getAttributesFromScimPayload imports ev directoryId logged)
  = Normal out ->
  out = ∅
  \/ exists props schemas,
       supportedEvent ev = true /\ data_raw ev = JObject props
       /\ lookupOwn props "schemas" = Some (JArray schemas)
       /\ out = scimUserAttributes
                  (snd (forEach (visitSchema imports props) schemas
                          (initial logged))).
Proof.
  intros Hout. destruct (supportedEvent ev) eqn:Hsup.
  - destruct (data_raw ev) as [| | | | | |props] eqn:Hraw;
      try (by rewrite extract_throws in Hout by (done || by rewrite Hraw)).
    destruct (lookupOwn props "schemas") as [[| | | | |schemas|]|] eqn:Hs;
      try (by rewrite extract_throws in Hout
             by (done || (rewrite Hraw; intros ?? [= <-]; by rewrite Hs))).
    rewrite (extract_supported _ _ _ _ _ _ Hsup Hraw Hs) in Hout.
    right. exists props, schemas. by inversion Hout.
  - rewrite extract_unsupported in Hout by done. left. by inversion Hout.
Qed.

(** No attribute named as a member of [Object.prototype] is ever
    extracted, whatever the namespaces hold under that name. *)
Lemma inherited_names_are_never_recorded ev directoryId logged out k :
  k ∈ objectPrototypeKeys ->
  fst (getAttributesFromScimPayload imports ev directoryId logged)
  = Normal out ->
  out !! k = None.
Proof.
  intros Hk [-> | (props & schemas & _ & _ & _ & ->)]%extract_normal_inv;
    [apply lookup_empty|].
  by apply (staysUnbound_walk imports k props schemas Hk (initial logged)).
Qed.

(** C6. Every value of a returned map is truthy and is a string or an
    array of strings: never [null], [undefined], the empty string, an
    object, a number, or an array with an element that is not a string. *)
Theorem output_values_are_strings ev directoryId logged out k v :
  fst (getAttributesFromScimPayload imports ev directoryId logged)
  = Normal out ->
  out !! k = Some v ->
  truthy v = true
  /\ v ≠ JNull /\ v ≠ JUndefined /\ v ≠ JString ""
  /\ (forall props, v ≠ JObject props)
  /\ (forall x, v ≠ JNumber x)
  /\ (forall items, v = JArray items ->
        Forall (fun item => exists s, item = JString s) items).
Proof.
  intros [-> | (props & schemas & _ & _ & _ & ->)]%extract_normal_inv Hk;
    [by rewrite lookup_empty in Hk|].
  apply walk_allAccepted in Hk. pose proof (accepted_truthy _ Hk) as Ht.
  destruct (accepted_shape _ Hk) as [(s & -> & Hs) | (items & -> & Hall)].
  - repeat split; try done. intros [= ->]. done.
  - repeat split; try done. by intros items' [= <-].
Qed.

(** C5. A field whose value is a number, a boolean, a plain object or an
    array with an element that is not a string is never recorded: the
    collection callback leaves the map as it was; a name that carries
    only such values in the namespaces walked is missing from the
    output; and every value of the output is a string or an array of
    strings. *)
Theorem unsupported_shapes_are_dropped v :
  unsupportedShape v = true ->
  (forall ignoreList name st,
     fst (collectEntry ignoreList (name, v) st) = Normal tt
     /\ scimUserAttributes (snd (collectEntry ignoreList (name, v) st))
        = scimUserAttributes st)
  /\ (forall ev directoryId logged out name,
        fst (getAttributesFromScimPayload imports ev directoryId logged)
        = Normal out ->
        out !! name ≠ Some v
        /\ (forall w, out !! name = Some w ->
              typeofString w || isStringArray w = true))
  /\ (forall ev directoryId logged out props schemas name,
        fst (getAttributesFromScimPayload imports ev directoryId logged)
        = Normal out ->
        supportedEvent ev = true ->
        data_raw ev = JObject props ->
        lookupOwn props "schemas" = Some (JArray schemas) ->
        (forall schema w, schema ∈ schemas ->
           (name, w) ∈ candidateFields props schema ->
           unsupportedShape w = true) ->
        out !! name = None).
Proof.
  intros Hv. pose proof (unsupportedShape_rejected _ Hv) as Hrej.
  split; [|split].
  - intros ign name st.
    destruct (collectEntry_cases ign name v st) as [Hn [Hsame | (_ & Hacc & _)]];
      [done | congruence].
  - intros ev directoryId logged out name Hout.
    assert (Hall : forall w, out !! name = Some w -> accepted w = true).
    { intros w Hw.
      apply extract_normal_inv in Hout
        as [-> | (props & schemas & _ & _ & _ & ->)];
        [by rewrite lookup_empty in Hw | by apply walk_allAccepted in Hw]. }
    split.
    + intros Hk. apply Hall in Hk. congruence.
    + intros w Hw. apply Hall in Hw. unfold accepted in Hw.
      by apply andb_prop in Hw as [_ Hw].
  - intros ev directoryId logged out props schemas name Hout Hsup Hraw Hs Hfields.
    rewrite (extract_supported _ _ _ _ _ _ Hsup Hraw Hs) in Hout.
    inversion Hout as [Heq]. clear Hout.
    destruct (scimUserAttributes _ !! name) as [w|] eqn:Hw; [|done].
    apply walk_origin in Hw as [Hinit | (schema & Hin & Hfield & Hacc)];
      [by rewrite initial_lookup in Hinit|].
    specialize (Hfields schema w Hin Hfield).
    apply unsupportedShape_rejected in Hfields. congruence.
Qed.

Lemma candidateFields_core props schema k v :
  isCoreSchema schema = true ->
  (k, v) ∈ candidateFields props schema -> k ∉ coreUserAttributesToIgnore.
Proof.
  unfold candidateFields. intros ->. rewrite list_elem_of_filter. simpl.
  intros [Hk _] Hin. by rewrite bool_decide_eq_true_2 in Hk.
Qed.

(** C4. Visiting the core namespace never binds or rebinds a name of
    the ignore list, whatever value the root field holds; so such a
    name is found in the output only if a custom namespace of the walk
    offers it. *)
Theorem ignored_core_fields_are_not_collected k :
  k ∈ coreUserAttributesToIgnore ->
  (forall props st,
     fst (visitSchema imports props (JString coreSchemaUrn) st) = Normal tt
     /\ scimUserAttributes
          (snd (visitSchema imports props (JString coreSchemaUrn) st)) !! k
        = scimUserAttributes st !! k)
  /\ (forall ev directoryId logged out props schemas,
        fst (getAttributesFromScimPayload imports ev directoryId logged)
        = Normal out ->
        supportedEvent ev = true ->
        data_raw ev = JObject props ->
        lookupOwn props "schemas" = Some (JArray schemas) ->
        (forall schema v, schema ∈ schemas -> isCoreSchema schema = false ->
           (k, v) ∉ candidateFields props schema) ->
        out !! k = None).
Proof.
  intros Hk. split.
  - intros props st. split; [apply visitSchema_candidateFields|].
    apply (sameAt_visitSchema imports k props (JString coreSchemaUrn)).
    intros v Hin. by apply candidateFields_core in Hin.
  - intros ev directoryId logged out props schemas Hout Hsup Hraw Hs Hcustom.
    rewrite (extract_supported _ _ _ _ _ _ Hsup Hraw Hs) in Hout.
    inversion Hout as [Heq]. clear Hout.
    destruct (scimUserAttributes _ !! k) as [w|] eqn:Hw; [|done].
    apply walk_origin in Hw as [Hinit | (schema & Hin & Hfield & _)];
      [by rewrite initial_lookup in Hinit|].
    destruct (isCoreSchema schema) eqn:Hcore.
    + by apply candidateFields_core in Hfield.
    + by destruct (Hcustom schema w Hin Hcore).
Qed.

(** C3, as amended. What the walk has bound is never rebound by a later
    namespace; and the first field of a name that a namespace offers
    past the ignore list, when its value is a non-empty string or an
    array of strings and its name is neither bound by an earlier
    namespace nor a member of [Object.prototype], is the binding of
    the output. *)
Theorem first_write_wins ev directoryId logged props schemas :
  supportedEvent ev = true ->
  data_raw ev = JObject props ->
  lookupOwn props "schemas" = Some (JArray schemas) ->
  exists out,
    fst (getAttributesFromScimPayload imports ev directoryId logged)
    = Normal out
    /\ (forall pre post k v,
          schemas = (pre ++ post)%list ->
          scimUserAttributes
            (snd (forEach (visitSchema imports props) pre (initial logged)))
            !! k = Some v ->
          out !! k = Some v)
    /\ (forall pre schema post fieldsBefore k v fieldsAfter,
          schemas = (pre ++ schema :: post)%list ->
          candidateFields props schema
          = (fieldsBefore ++ (k, v) :: fieldsAfter)%list ->
          k ∉ map fst fieldsBefore ->
          accepted v = true ->
          k ∉ objectPrototypeKeys ->
          scimUserAttributes
            (snd (forEach (visitSchema imports props) pre (initial logged)))
            !! k = None ->
          out !! k = Some v).
Proof.
  intros Hsup Hraw Hs. eexists. split; [by apply extract_supported|]. split.
  - intros pre post k v -> Hpre. rewrite walk_app.
    apply keepsTruthy_walk; [done|].
    by apply accepted_truthy, (walk_allAccepted props pre logged k).
  - intros pre schema post fieldsBefore k v fieldsAfter -> Hfields Hfresh Hacc
      Hproto Hnone.
    rewrite walk_app, forEach_cons by apply visitSchema_candidateFields.
    apply keepsTruthy_walk; [|by apply accepted_truthy].
    destruct (visitSchema_candidateFields imports props schema
                (snd (forEach (visitSchema imports props) pre (initial logged))))
      as [_ ->].
    rewrite Hfields. apply collectEntries_records; [done | | done |].
    + apply not_elem_of_nil.
    + by apply fresh_name_reads_falsy.
Qed.

(** C8. The sample "user.created" event, with the core URN and the
    namespaces "segment" and "territory", yields exactly
    [{segment: "SMB", territory: "NAM"}]. *)
Theorem scenario_segment_territory directoryId logged :
  fst (getAttributesFromScimPayload imports userCreated directoryId logged)
  = Normal (<["segment" := JString "SMB"]>
              (<["territory" := JString "NAM"]> ∅)).
Proof.
  rewrite (extract_supported _ userCreated directoryId logged
             [ ("schemas",
                JArray [JString coreSchemaUrn; JString "segment";
                        JString "territory"]);
               ("userName", JString "a@b.com");
               ("segment", JObject [("segment", JString "SMB")]);
               ("territory", JObject [("territory", JString "NAM")]) ]
             [JString coreSchemaUrn; JString "segment"; JString "territory"])
    by reflexivity.
  apply (f_equal Normal). vm_compute. reflexivity.
Qed.

(** C10, on the failing input. A field [constructor: []] of the only
    namespace is not recorded: the read [scimUserAttributes["constructor"]]
    finds the member of [Object.prototype], and the callback takes the
    "already exists" exit. *)
Theorem inherited_name_blocks_empty_array directoryId logged :
  candidateFields
    [ ("schemas", JArray [JString "segment"]);
      ("segment", JObject [("constructor", JArray [])]) ]
    (JString "segment")
  = [("constructor", JArray [])]
  /\ getAttributesFromScimPayload imports constructorField directoryId logged
     = (Normal ∅,
        let warned :=
          (logged ++
           [LogWarn tag
              ("Custom attribute constructor already exists. " +:+
               "Might be coming from different namespace. Ignoring it.")])%list in
        if bool_decide (directoryId ∈ DIRECTORY_IDS_TO_LOG imports)
        then (warned ++ [ConsoleLog "Collected Attributes:" ∅])%list
        else warned).
Proof.
  split; [reflexivity|].
  unfold getAttributesFromScimPayload, extractBody. simpl.
  case_bool_decide; vm_compute; reflexivity.
Qed.

End Claims.

(** ** The properties at the sample events *)

Abbreviation extractExample := (getAttributesFromScimPayload exampleImports).

(** Closed goals over the sample events are settled by evaluation. *)
Local Ltac evaluate :=
  first [ reflexivity
        | vm_compute; reflexivity
        | compute_done ].

(** Scenario 2: the sample document under "user.deleted". *)
Lemma unsupported_event_witness :
  (event userDeleted ≠ "user.created" /\ event userDeleted ≠ "user.updated")
  /\ extractExample userDeleted "dir-1" []
     = (Normal ∅, [LogError tag "Unsupported event: user.deleted"]).
Proof.
  split; [by split|].
  apply (unsupported_event_returns_empty exampleImports
           userDeleted "dir-1" []); done.
Defined.

(** A "user.created" event whose document has no [schemas]: the call
    throws instead of returning a map. *)
Lemma missing_schemas_throws :
  wellFormed (data_raw noSchemas) = true
  /\ extractExample noSchemas "dir-1" [] = (Throw TypeError, []).
Proof. split; reflexivity. Qed.

Lemma returns_normally_witness :
  exists out, fst (extractExample userCreated "dir-1" []) = Normal out.
Proof.
  apply (proj1 (returns_normally_iff_schemas_array exampleImports userCreated
                  "dir-1" [])).
  right. eexists _, _. split; reflexivity.
Defined.

(** Two namespaces declare the same name with string values, and the
    output holds the value of the one processed second: once because the
    first value is the empty string, once because the first namespace is
    the core one and the name is on its ignore list. *)
Lemma second_namespace_value_recorded :
  (wellFormed (data_raw emptyFirst) = true
   /\ candidateFields emptyFirstProps (JString "a") = [("level", JString "")]
   /\ candidateFields emptyFirstProps (JString "b") = [("level", JString "senior")]
   /\ fst (extractExample emptyFirst "dir-1" [])
      = Normal (<["level" := JString "senior"]> ∅))
  /\ (wellFormed (data_raw titleTwice) = true
      /\ lookupOwn (withoutSchemas titleTwiceProps) "title" = Some (JString "VP")
      /\ candidateFields titleTwiceProps (JString "hr")
         = [("title", JString "Director")]
      /\ fst (extractExample titleTwice "dir-1" [])
         = Normal (<["nickname" := JString "Bob"]>
                     (<["title" := JString "Director"]> ∅))).
Proof. repeat split; vm_compute; reflexivity. Qed.

(** Namespaces [a] and [b] both declare [level] with a valid value:
    the output keeps the value of [a], processed first, by the second
    half of the theorem; by the first half, what the walk over [a] alone
    has bound is still there after [b]; and [b], which may not rebind
    [level], still binds its own [grade]. *)
Lemma first_write_wins_witness :
  (candidateFields levelTwiceProps (JString "a") = [("level", JString "junior")]
   /\ candidateFields levelTwiceProps (JString "b")
      = [("level", JString "senior"); ("grade", JString "G7")]
   /\ scimUserAttributes
        (snd (forEach (visitSchema exampleImports levelTwiceProps)
                [JString "a"] (initial []))) !! "level"
      = Some (JString "junior"))
  /\ exists out,
       fst (extractExample levelTwice "dir-1" []) = Normal out
       /\ out !! "level" = Some (JString "junior")
       /\ out !! "level" ≠ Some (JString "senior")
       /\ out !! "grade" = Some (JString "G7").
Proof.
  assert (Hafter_a :
    scimUserAttributes
      (snd (forEach (visitSchema exampleImports levelTwiceProps)
              [JString "a"] (initial []))) !! "level"
    = Some (JString "junior")) by evaluate.
  split; [split; [evaluate | split; [evaluate | exact Hafter_a]]|].
  destruct (first_write_wins exampleImports levelTwice "dir-1" []
              levelTwiceProps [JString "a"; JString "b"]
              eq_refl eq_refl eq_refl) as (out & Hout & Hkept & Hfirst).
  assert (Hlevel : out !! "level" = Some (JString "junior")).
  { apply (Hfirst [] (JString "a") [JString "b"] []
             "level" (JString "junior") []); evaluate. }
  exists out. split; [exact Hout|]. split; [exact Hlevel|]. split.
  - rewrite (Hkept [JString "a"] [JString "b"] "level" (JString "junior")
               eq_refl Hafter_a).
    discriminate.
  - apply (Hfirst [JString "a"] (JString "b") []
             [("level", JString "senior")] "grade" (JString "G7") []);
      evaluate.
Defined.

(** Scenario 4: [title] is ignored in the core namespace. *)
Lemma ignored_core_fields_witness :
  "title" ∈ coreUserAttributesToIgnore
  /\ scimUserAttributes
       (snd (visitSchema exampleImports titleTwiceProps
               (JString coreSchemaUrn) (initial []))) !! "title" = None.
Proof.
  assert (Hin : "title" ∈ coreUserAttributesToIgnore) by evaluate.
  split; [exact Hin|].
  destruct (ignored_core_fields_are_not_collected exampleImports "title" Hin)
    as [Hvisit _].
  destruct (Hvisit titleTwiceProps (initial [])) as [_ ->]. reflexivity.
Defined.

(** Scenario 6: [score: 42] is dropped. *)
Lemma unsupported_shapes_witness :
  unsupportedShape (JNumber 42%float) = true
  /\ scimUserAttributes
       (snd (collectEntry [] ("score", JNumber 42%float) (initial [])))
     = ∅
  /\ exists out,
       fst (extractExample scoreEvent "dir-1" []) = Normal out
       /\ out !! "score" ≠ Some (JNumber 42%float).
Proof.
  split; [reflexivity|].
  destruct (unsupported_shapes_are_dropped exampleImports
              (JNumber 42%float) eq_refl) as (Hentry & Hout & _).
  split.
  - by destruct (Hentry [] "score" (initial [])) as [_ ->].
  - eexists. split; [reflexivity|].
    eapply (Hout scoreEvent "dir-1" []). reflexivity.
Defined.

(** Scenario 5: an array of strings is recorded as it is. *)
Lemma output_values_witness :
  fst (extractExample scoreEvent "dir-1" [])
  = Normal (<["segment" := JArray [JString "SMB"; JString "Enterprise"]]> ∅)
  /\ truthy (JArray [JString "SMB"; JString "Enterprise"]) = true
  /\ Forall (fun item => exists s, item = JString s)
       [JString "SMB"; JString "Enterprise"].
Proof.
  assert (Hout :
    fst (extractExample scoreEvent "dir-1" [])
    = Normal (<["segment" := JArray [JString "SMB"; JString "Enterprise"]]> ∅))
    by (vm_compute; reflexivity).
  destruct (output_values_are_strings exampleImports
              scoreEvent "dir-1" [] _ "segment"
              (JArray [JString "SMB"; JString "Enterprise"]) Hout eq_refl)
    as (Ht & _ & _ & _ & _ & _ & Hitems).
  split; [exact Hout|]. split; [exact Ht|]. by apply Hitems.
Defined.

(** ** Further evaluations *)

(** The falsy numbers are the two zeros and NaN. *)
Example falsy_numbers :
  truthy (JNumber 0%float) = false
  /\ truthy (JNumber (-0)%float) = false
  /\ truthy (JNumber PrimFloat.nan) = false
  /\ truthy (JNumber 42%float) = true.
Proof. repeat split; reflexivity. Qed.

(** A namespace whose data is a string is walked index by index, as
    [Object.entries("SMB")] lists it. *)
Example namespace_given_as_string :
  fst (extractExample
         {| event := "user.created";
            data_raw := JObject [ ("schemas", JArray [JString "segment"]);
                                  ("segment", JString "SMB") ] |}
         "dir-1" [])
  = Normal (<["0" := JString "S"]>
              (<["1" := JString "M"]> (<["2" := JString "B"]> ∅))).
Proof. vm_compute. reflexivity. Qed.

(** With the directory on the verbose list, the map is dumped last. *)
Example verbose_directory_dumps_the_map :
  snd (extractExample userCreated "dir-verbose" [])
  = [ConsoleLog "Collected Attributes:"
       (<["segment" := JString "SMB"]> (<["territory" := JString "NAM"]> ∅))].
Proof. vm_compute. reflexivity. Qed.

(** ** The output as a first-match search *)

Lemma collectEntry_skips ign k v st :
  k ∈ ign \/ accepted v = false
  \/ lookupTruthy (getProperty (scimUserAttributes st !! k) k) = true ->
  scimUserAttributes (snd (collectEntry ign (k, v) st)) = scimUserAttributes st.
Proof.
  intros Hcase.
  destruct (collectEntry_cases ign k v st)
    as [_ [Hsame | (Hign & Hacc & Hl & _)]]; [done|].
  destruct Hcase as [Hin | [Hrej | Hpresent]]; [done | congruence | congruence].
Qed.

Lemma allTruthy_collectEntry ign e st :
  allTruthy st -> allTruthy (snd (collectEntry ign e st)).
Proof.
  destruct e as [k0 v0]. intros Hst k v Hk.
  apply collectEntry_origin in Hk as [Hold | (_ & -> & _ & Hacc)].
  - by apply (Hst k).
  - by apply accepted_truthy.
Qed.

Lemma unbound_reads_absent st k :
  allTruthy st ->
  lookupTruthy (getProperty (scimUserAttributes st !! k) k) = false ->
  scimUserAttributes st !! k = None /\ k ∉ objectPrototypeKeys.
Proof.
  intros Hst. unfold getProperty.
  destruct (scimUserAttributes st !! k) as [w|] eqn:Hk; simpl.
  - rewrite (Hst k w Hk). done.
  - case_bool_decide; [done|]. by split.
Qed.

(** From a state of truthy values, the callback run over a list of
    fields, none ignored, leaves at [k] what was there, or else the first
    accepted field of that name, unless [Object.prototype] carries [k]. *)
Lemma collectEntries_first_accepted entries st k :
  allTruthy st ->
  scimUserAttributes (snd (collectEntries [] entries st)) !! k
  = match scimUserAttributes st !! k with
    | Some w => Some w
    | None =>
        if bool_decide (k ∈ objectPrototypeKeys) then None
        else firstAcceptedField k entries
    end.
Proof.
  unfold collectEntries. revert st.
  induction entries as [|[k0 v0] entries IH]; intros st Hst.
  - simpl. destruct (scimUserAttributes st !! k); [done|]. by case_bool_decide.
  - rewrite forEach_cons by apply collectEntry_cases.
    rewrite IH by by apply allTruthy_collectEntry.
    destruct (accepted v0) eqn:Hacc;
      [destruct (lookupTruthy (getProperty (scimUserAttributes st !! k0) k0))
         eqn:Hl|].
    + rewrite collectEntry_skips by auto.
      destruct (scimUserAttributes st !! k) as [w|] eqn:Hk; [done|].
      case_bool_decide as Hproto; [done|]. simpl.
      destruct (String.eqb k0 k) eqn:Heq; [|done].
      apply String.eqb_eq in Heq as ->.
      rewrite Hk in Hl. unfold getProperty in Hl.
      by rewrite bool_decide_eq_false_2 in Hl.
    + rewrite collectEntry_writes by (done || apply not_elem_of_nil).
      destruct (unbound_reads_absent st k0 Hst Hl) as [Hnone Hproto].
      destruct (decide (k0 = k)) as [->|Hne].
      * rewrite lookup_insert_eq, Hnone.
        rewrite bool_decide_eq_false_2 by done. simpl.
        by rewrite String.eqb_refl, Hacc.
      * rewrite lookup_insert_ne by done. simpl.
        by rewrite (proj2 (String.eqb_neq k0 k) Hne).
    + rewrite collectEntry_skips by auto. simpl.
      by rewrite Hacc, andb_false_r.
Qed.

Lemma firstAcceptedField_app k l1 l2 :
  firstAcceptedField k (l1 ++ l2)
  = match firstAcceptedField k l1 with
    | Some v => Some v
    | None => firstAcceptedField k l2
    end.
Proof.
  induction l1 as [|[k0 v0] l1 IH]; [done|]. simpl.
  by destruct (String.eqb k0 k && accepted v0).
Qed.

Lemma allTruthy_initial logged : allTruthy (initial logged).
Proof. intros k v Hk. simpl in Hk. by rewrite lookup_empty in Hk. Qed.

Section Further.

Variable imports : Imports.

Lemma walk_offeredFields props schemas st :
  scimUserAttributes (snd (forEach (visitSchema imports props) schemas st))
  = scimUserAttributes
      (snd (collectEntries [] (offeredFields props schemas) st)).
Proof.
  unfold offeredFields, collectEntries. revert st.
  induction schemas as [|schema schemas IH]; intros st; [done|].
  rewrite forEach_cons by apply visitSchema_candidateFields.
  simpl map. simpl concat.
  rewrite forEach_app by (intros e; apply neverThrows_collectEntry).
  rewrite IH. apply sinkBlind_collectEntries.
  apply visitSchema_candidateFields.
Qed.

Lemma walk_first_accepted props schemas logged k :
  scimUserAttributes
    (snd (forEach (visitSchema imports props) schemas (initial logged))) !! k
  = if bool_decide (k ∈ objectPrototypeKeys) then None
    else firstAcceptedField k (offeredFields props schemas).
Proof.
  rewrite walk_offeredFields.
  rewrite collectEntries_first_accepted by apply allTruthy_initial.
  simpl. by rewrite lookup_empty.
Qed.

(** C7. A [schemas] entry that is not a string, or that names a
    namespace whose data in [raw] is missing or falsy, is visited
    without a throw and binds nothing; the walk goes on, and ends with
    the attributes it would have without that entry; and the call
    returns, for each name, the first accepted field that the remaining
    entries offer for it. *)
Theorem skipped_entries_contribute_nothing props schema :
  skippedEntry props schema = true ->
  (forall st,
     fst (visitSchema imports props schema st) = Normal tt
     /\ scimUserAttributes (snd (visitSchema imports props schema st))
        = scimUserAttributes st)
  /\ (forall pre post st,
        fst (forEach (visitSchema imports props) (pre ++ schema :: post) st)
        = Normal tt
        /\ scimUserAttributes
             (snd (forEach (visitSchema imports props)
                     (pre ++ schema :: post) st))
           = scimUserAttributes
               (snd (forEach (visitSchema imports props) (pre ++ post) st)))
  /\ (forall ev directoryId logged pre post,
        supportedEvent ev = true ->
        data_raw ev = JObject props ->
        lookupOwn props "schemas" = Some (JArray (pre ++ schema :: post)) ->
        fst (getAttributesFromScimPayload imports ev directoryId logged)
        = Normal (scimUserAttributes
                    (snd (forEach (visitSchema imports props) (pre ++ post)
                            (initial logged))))
        /\ exists out,
             fst (getAttributesFromScimPayload imports ev directoryId logged)
             = Normal out
             /\ forall k,
                  out !! k
                  = if bool_decide (k ∈ objectPrototypeKeys) then None
                    else firstAcceptedField k
                           (offeredFields props (pre ++ post))).
Proof.
  intros Hskip.
  assert (Hone : forall st,
    fst (visitSchema imports props schema st) = Normal tt
    /\ scimUserAttributes (snd (visitSchema imports props schema st))
       = scimUserAttributes st).
  { intros st. destruct (visitSchema_candidateFields imports props schema st)
      as [Hn ->]. by rewrite candidateFields_skipped. }
  assert (Hwalk : forall pre post st,
    scimUserAttributes
      (snd (forEach (visitSchema imports props) (pre ++ schema :: post) st))
    = scimUserAttributes
        (snd (forEach (visitSchema imports props) (pre ++ post) st))).
  { intros pre post st. rewrite !walk_app.
    rewrite forEach_cons by apply Hone.
    apply sinkBlind_walk. apply Hone. }
  split; [done|]. split.
  - intros pre post st. split; [apply walk_normal | apply Hwalk].
  - intros ev directoryId logged pre post Hsup Hraw Hs.
    assert (Hcall :
      fst (getAttributesFromScimPayload imports ev directoryId logged)
      = Normal (scimUserAttributes
                  (snd (forEach (visitSchema imports props) (pre ++ post)
                          (initial logged))))).
    { rewrite (extract_supported _ _ _ _ _ _ Hsup Hraw Hs). f_equal.
      apply Hwalk. }
    split; [exact Hcall|]. eexists. split; [exact Hcall|].
    intros k. apply walk_first_accepted.
Qed.

(** X1. For a supported event with a [schemas] array, the returned map
    binds each name to the value of the first field of that name, in the
    order of the walk and past the ignore list, that holds a non-empty
    string or an array of strings; a name that [Object.prototype]
    carries, or that no such field has, is not bound. *)
Theorem output_is_first_accepted_field ev directoryId logged props schemas k :
  supportedEvent ev = true ->
  data_raw ev = JObject props ->
  lookupOwn props "schemas" = Some (JArray schemas) ->
  exists out,
    fst (getAttributesFromScimPayload imports ev directoryId logged)
    = Normal out
    /\ out !! k
       = if bool_decide (k ∈ objectPrototypeKeys) then None
         else firstAcceptedField k (offeredFields props schemas).
Proof.
  intros Hsup Hraw Hs. eexists. split; [by apply extract_supported|].
  apply walk_first_accepted.
Qed.

(** X2. A [schemas] entry that occurs again later in the array is
    visited a second time without effect on the returned map. *)
Theorem repeated_schema_entry_changes_nothing
    ev directoryId logged props pre schema mid post :
  supportedEvent ev = true ->
  data_raw ev = JObject props ->
  lookupOwn props "schemas"
  = Some (JArray (pre ++ schema :: mid ++ schema :: post)) ->
  fst (getAttributesFromScimPayload imports ev directoryId logged)
  = Normal (scimUserAttributes
              (snd (forEach (visitSchema imports props)
                      (pre ++ schema :: mid ++ post) (initial logged)))).
Proof.
  intros Hsup Hraw Hs.
  rewrite (extract_supported _ _ _ _ _ _ Hsup Hraw Hs). f_equal.
  apply map_eq. intros k. rewrite !walk_first_accepted.
  case_bool_decide; [done|]. unfold offeredFields.
  rewrite !map_app, !concat_app. simpl map. simpl concat.
  rewrite !map_app, !concat_app. simpl map. simpl concat.
  rewrite !firstAcceptedField_app.
  destruct (firstAcceptedField k (concat (map (candidateFields props) pre)));
    [done|].
  destruct (firstAcceptedField k (candidateFields props schema)); [done|].
  by destruct (firstAcceptedField k (concat (map (candidateFields props) mid))).
Qed.

(** *** What reaches the console *)

#[local] Instance logsOnly_refl : Reflexive logsOnly.
Proof. intros st. exists []. split; [by rewrite app_nil_r | constructor]. Qed.

#[local] Instance logsOnly_trans : Transitive logsOnly.
Proof.
  intros s1 s2 s3 (n1 & H1 & F1) (n2 & H2 & F2). exists (n1 ++ n2)%list. split.
  - by rewrite H2, H1, app_assoc.
  - by apply Forall_app.
Qed.

Lemma logsOnly_same_sink st st' : sink st' = sink st -> logsOnly st st'.
Proof. intros H. exists []. split; [by rewrite app_nil_r | constructor]. Qed.

Lemma logsOnly_emit e : isConsoleLog e = false -> respects logsOnly (emit e).
Proof. intros He st. exists [e]. split; [done | by repeat constructor]. Qed.

Lemma logsOnly_collectEntry ign e : respects logsOnly (collectEntry ign e).
Proof.
  destruct e as [k v]. unfold collectEntry.
  case_bool_decide; [by intros st|].
  destruct (truthy v); simpl; [|by apply logsOnly_emit].
  apply respects_bind; [apply _ | by intros st |]. intros existing.
  destruct (lookupTruthy existing); [by apply logsOnly_emit|].
  destruct (typeofString v || isStringArray v); intros st;
    by apply logsOnly_same_sink.
Qed.

Lemma logsOnly_collectAttributes data ign :
  respects logsOnly (collectAttributes data ign).
Proof.
  apply respects_bind; [apply _ | destruct data; by intros st |].
  intros entries. apply respects_forEach; try apply _.
  intros e _. apply logsOnly_collectEntry.
Qed.

Lemma logsOnly_visitSchema props schema :
  respects logsOnly (visitSchema imports props schema).
Proof.
  unfold visitSchema. destruct (isCoreSchema schema).
  - apply logsOnly_collectAttributes.
  - destruct schema; try (by apply logsOnly_emit).
    destruct (getProperty _ _); [|by intros st|by apply logsOnly_emit].
    destruct (negb _); [by apply logsOnly_emit | apply logsOnly_collectAttributes].
Qed.

Lemma logsOnly_walk props schemas :
  respects logsOnly (forEach (visitSchema imports props) schemas).
Proof.
  apply respects_forEach; try apply _. intros x _. apply logsOnly_visitSchema.
Qed.

Lemma extract_supported_pair ev directoryId logged props schemas :
  supportedEvent ev = true ->
  data_raw ev = JObject props ->
  lookupOwn props "schemas" = Some (JArray schemas) ->
  getAttributesFromScimPayload imports ev directoryId logged
  = (Normal (scimUserAttributes
               (snd (forEach (visitSchema imports props) schemas
                       (initial logged)))),
     if bool_decide (directoryId ∈ DIRECTORY_IDS_TO_LOG imports)
     then (sink (snd (forEach (visitSchema imports props) schemas
                        (initial logged)))
           ++ [ConsoleLog "Collected Attributes:"
                 (scimUserAttributes
                    (snd (forEach (visitSchema imports props) schemas
                            (initial logged))))])%list
     else sink (snd (forEach (visitSchema imports props) schemas
                       (initial logged)))).
Proof.
  unfold supportedEvent. intros Hsup Hraw Hschemas.
  unfold getAttributesFromScimPayload, extractBody.
  replace (negb (String.eqb (event ev) "user.created")
           && negb (String.eqb (event ev) "user.updated")) with false
    by (by destruct (String.eqb _ _), (String.eqb _ _)).
  rewrite Hraw. unfold schemasOf. rewrite Hschemas. simpl getProperty.
  unfold bind at 1. unfold ret at 1.
  unfold bind at 1. fold (initial logged).
  pose proof (walk_normal imports props schemas (initial logged)) as Hn.
  destruct (forEach (visitSchema imports props) schemas (initial logged))
    as [[[]|e] st]; simpl in Hn; [|done].
  simpl. by case_bool_decide.
Qed.

Lemma extract_supported_inv ev directoryId logged out :
  supportedEvent ev = true ->
  fst (getAttributesFromScimPayload imports ev directoryId logged)
  = Normal out ->
  exists props schemas,
    data_raw ev = JObject props
    /\ lookupOwn props "schemas" = Some (JArray schemas).
Proof.
  intros Hsup Hout.
  destruct (data_raw ev) as [| | | | | |props] eqn:Hraw;
    try (by rewrite extract_throws in Hout by (done || by rewrite Hraw)).
  destruct (lookupOwn props "schemas") as [[| | | | |schemas|]|] eqn:Hs;
    try (by rewrite extract_throws in Hout
           by (done || (rewrite Hraw; intros ?? [= <-]; by rewrite Hs))).
  by exists props, schemas.
Qed.

(** X4. When a call returns, what it has appended to the sink is a run
    of logger entries, followed by one console dump of the very map it
    returns if the event kind is supported and the directory is on
    [DIRECTORY_IDS_TO_LOG], and by nothing otherwise. *)
Theorem console_dump_is_last_and_is_the_result ev directoryId logged out :
  fst (getAttributesFromScimPayload imports ev directoryId logged)
  = Normal out ->
  exists logs,
    Forall (fun e => isConsoleLog e = false) logs
    /\ snd (getAttributesFromScimPayload imports ev directoryId logged)
       = (logged ++ logs ++
          (if supportedEvent ev
              && bool_decide (directoryId ∈ DIRECTORY_IDS_TO_LOG imports)
           then [ConsoleLog "Collected Attributes:" out]
           else []))%list.
Proof.
  intros Hout. destruct (supportedEvent ev) eqn:Hsup.
  - destruct (extract_supported_inv _ _ _ _ Hsup Hout)
      as (props & schemas & Hraw & Hs).
    rewrite (extract_supported_pair _ _ _ _ _ Hsup Hraw Hs) in Hout |- *.
    simpl in Hout |- *. inversion Hout as [Heq]. clear Hout.
    destruct (logsOnly_walk props schemas (initial logged)) as (new & -> & Hnew).
    exists new. split; [done|]. simpl.
    case_bool_decide; by rewrite ?app_nil_r, ?app_assoc.
  - rewrite extract_unsupported in Hout |- * by done. simpl.
    exists [LogError tag ("Unsupported event: " +:+ event ev)].
    split; [by repeat constructor|]. by rewrite app_nil_r.
Qed.

(** X5. The directory identifier, like the state of the sink, has no
    part in the completion or in the map returned: it only decides the
    console dump. *)
Theorem directory_does_not_change_the_map ev directoryId1 directoryId2
    logged1 logged2 :
  fst (getAttributesFromScimPayload imports ev directoryId1 logged1)
  = fst (getAttributesFromScimPayload imports ev directoryId2 logged2).
Proof.
  destruct (supportedEvent ev) eqn:Hsup.
  - destruct (data_raw ev) as [| | | | | |props] eqn:Hraw;
      try (by rewrite !extract_throws by (done || by rewrite Hraw)).
    destruct (lookupOwn props "schemas") as [[| | | | |schemas|]|] eqn:Hs;
      try (by rewrite !extract_throws
             by (done || (rewrite Hraw; intros ?? [= <-]; by rewrite Hs))).
    rewrite !(extract_supported _ _ _ _ _ _ Hsup Hraw Hs). f_equal.
    by apply sinkBlind_walk.
  - by rewrite !extract_unsupported.
Qed.

(** *** Fields passed over without a word *)

Lemma unsupportedShape_not_string v :
  unsupportedShape v = true -> typeofString v || isStringArray v = false.
Proof.
  destruct v as [| | | | |items|]; simpl; try done.
  by intros ->%negb_true_iff.
Qed.

Lemma collectEntry_silent ign st e :
  passedOverSilently ign st e = true ->
  collectEntry ign e st = (Normal tt, st).
Proof.
  destruct e as [k v]. unfold passedOverSilently, collectEntry. simpl.
  case_bool_decide; [done|]. simpl.
  intros [[Ht Hu]%andb_prop Hl%negb_true_iff]%andb_prop.
  rewrite Ht. simpl. unfold bind, readAttribute. rewrite Hl.
  by rewrite (unsupportedShape_not_string _ Hu).
Qed.

Lemma collectEntries_silent ign st entries :
  forallb (passedOverSilently ign st) entries = true ->
  collectEntries ign entries st = (Normal tt, st).
Proof.
  unfold collectEntries. induction entries as [|e entries IH]; [done|].
  simpl forallb. intros [He Hrest]%andb_prop.
  pose proof (collectEntry_silent ign st e He) as Hstep.
  rewrite forEach_cons by by rewrite Hstep.
  rewrite Hstep. by apply IH.
Qed.

(** X6. The visit of the core namespace leaves the state as it found
    it, nothing logged and nothing bound, when each root field other
    than [schemas] is on the ignore list, or holds a truthy value that
    is neither a string nor an array of strings under a name that does
    not read as present. *)
Theorem core_visit_is_silent props st :
  forallb (passedOverSilently coreUserAttributesToIgnore st)
          (withoutSchemas props) = true ->
  visitSchema imports props (JString coreSchemaUrn) st = (Normal tt, st).
Proof.
  intros Hall. unfold visitSchema.
  replace (isCoreSchema (JString coreSchemaUrn)) with true by reflexivity.
  rewrite collectAttributes_entries by done.
  by apply collectEntries_silent.
Qed.

(** *** The [schemas] array is not an attribute of the core namespace *)

Lemma candidateFields_core_not_schemas props schema v :
  isCoreSchema schema = true -> ("schemas", v) ∉ candidateFields props schema.
Proof.
  unfold candidateFields, withoutSchemas. intros ->.
  rewrite !list_elem_of_filter. simpl. tauto.
Qed.

(** X7. Although [schemas] is an array of strings, the visit of the
    core namespace never binds or rebinds the name "schemas"; the
    output holds it only if a custom namespace of the walk offers it. *)
Theorem schemas_is_not_collected_by_core :
  (forall props st,
     fst (visitSchema imports props (JString coreSchemaUrn) st) = Normal tt
     /\ scimUserAttributes
          (snd (visitSchema imports props (JString coreSchemaUrn) st))
        !! "schemas"
        = scimUserAttributes st !! "schemas")
  /\ (forall ev directoryId logged out props schemas,
        fst (getAttributesFromScimPayload imports ev directoryId logged)
        = Normal out ->
        supportedEvent ev = true ->
        data_raw ev = JObject props ->
        lookupOwn props "schemas" = Some (JArray schemas) ->
        (forall schema v, schema ∈ schemas -> isCoreSchema schema = false ->
           ("schemas", v) ∉ candidateFields props schema) ->
        out !! "schemas" = None).
Proof.
  split.
  - intros props st. split; [apply visitSchema_candidateFields|].
    apply (sameAt_visitSchema imports "schemas" props (JString coreSchemaUrn)).
    intros v Hin. by apply candidateFields_core_not_schemas in Hin.
  - intros ev directoryId logged out props schemas Hout Hsup Hraw Hs Hcustom.
    rewrite (extract_supported _ _ _ _ _ _ Hsup Hraw Hs) in Hout.
    inversion Hout as [Heq]. clear Hout.
    destruct (scimUserAttributes _ !! "schemas") as [w|] eqn:Hw; [|done].
    apply walk_origin in Hw as [Hinit | (schema & Hin & Hfield & _)];
      [by rewrite initial_lookup in Hinit|].
    destruct (isCoreSchema schema) eqn:Hcore.
    + by apply candidateFields_core_not_schemas in Hfield.
    + by destruct (Hcustom schema w Hin Hcore).
Qed.

(** *** Which names are bound *)

Lemma firstAcceptedField_is_Some k entries :
  is_Some (firstAcceptedField k entries)
  <-> exists v, (k, v) ∈ entries /\ accepted v = true.
Proof.
  induction entries as [|[k0 v0] entries IH]; simpl.
  - split; [by intros [? ?] | by intros (v & Hin%elem_of_nil & _)].
  - destruct (String.eqb k0 k && accepted v0) eqn:Hhit.
    + apply andb_prop in Hhit as [->%String.eqb_eq Hacc].
      split; [|by eauto]. intros _. exists v0. split; [left | done].
    + rewrite IH. split.
      * intros (v & Hin & Hacc). exists v. split; [by right | done].
      * intros (v & [[= -> ->] | Hin]%elem_of_cons & Hacc); [|by eauto].
        by rewrite String.eqb_refl, Hacc in Hhit.
Qed.

Lemma elem_of_offeredFields props schemas p :
  p ∈ offeredFields props schemas
  <-> exists schema, schema ∈ schemas /\ p ∈ candidateFields props schema.
Proof.
  unfold offeredFields. induction schemas as [|s schemas IH]; simpl.
  - split; [by intros ?%elem_of_nil | by intros (? & ?%elem_of_nil & _)].
  - rewrite elem_of_app, IH. split.
    + intros [Hin | (schema & Hs & Hin)]; [exists s | exists schema];
        (split; [|done]); [left | by right].
    + intros (schema & [-> | Hs]%elem_of_cons & Hin); [by left | right; eauto].
Qed.

(** X8. For a supported event with a [schemas] array, a name is bound
    in the returned map exactly when [Object.prototype] does not carry
    it and some entry of [schemas], wherever it stands in the array,
    offers a field of that name with a non-empty string or an array of
    strings. *)
Theorem bound_names_are_the_offered_names
    ev directoryId logged props schemas k :
  supportedEvent ev = true ->
  data_raw ev = JObject props ->
  lookupOwn props "schemas" = Some (JArray schemas) ->
  exists out,
    fst (getAttributesFromScimPayload imports ev directoryId logged)
    = Normal out
    /\ (is_Some (out !! k)
        <-> (k ∉ objectPrototypeKeys)
            /\ exists schema v,
                 schema ∈ schemas
                 /\ (k, v) ∈ candidateFields props schema
                 /\ accepted v = true).
Proof.
  intros Hsup Hraw Hs. eexists. split; [by apply extract_supported|].
  rewrite walk_first_accepted. case_bool_decide as Hproto.
  - split; [by intros [? ?] | by intros [? _]].
  - rewrite firstAcceptedField_is_Some. split.
    + intros (v & (schema & Hin & Hfield)%elem_of_offeredFields & Hacc).
      split; [done|]. by exists schema, v.
    + intros (_ & schema & v & Hin & Hfield & Hacc). exists v.
      split; [|done]. apply elem_of_offeredFields. by exists schema.
Qed.

End Further.

(** ** The further properties at the sample events *)

(** [hr] is listed before and after the core URN: [title] comes from
    [hr], whose [grade: 0] is falsy, and [nickname] from the root. With
    [level] in two namespaces the first value is the one found; and the
    string "日本" is searched by its two code units. *)
Lemma output_is_first_accepted_field_witness :
  (exists out,
     fst (extractExample repeatedEvent "dir-1" []) = Normal out
     /\ out !! "title" = Some (JString "Director")
     /\ out !! "grade" = None)
  /\ (exists out,
        fst (extractExample levelTwice "dir-1" []) = Normal out
        /\ out !! "level" = Some (JString "junior"))
  /\ (exists out,
        fst (extractExample kanjiEvent "dir-1" []) = Normal out
        /\ out !! "1" = Some (JString "本")
        /\ out !! "2" = None).
Proof.
  split; [|split].
  - destruct (output_is_first_accepted_field exampleImports repeatedEvent
                "dir-1" [] repeatedProps
                [JString "hr"; JString coreSchemaUrn; JString "hr"] "title"
                eq_refl eq_refl eq_refl) as (out & Hout & Htitle).
    destruct (output_is_first_accepted_field exampleImports repeatedEvent
                "dir-1" [] repeatedProps
                [JString "hr"; JString coreSchemaUrn; JString "hr"] "grade"
                eq_refl eq_refl eq_refl) as (out' & Hout' & Hgrade).
    assert (out' = out) as -> by congruence.
    exists out. split; [exact Hout|]. split.
    + rewrite Htitle. evaluate.
    + rewrite Hgrade. evaluate.
  - destruct (output_is_first_accepted_field exampleImports levelTwice
                "dir-1" [] levelTwiceProps [JString "a"; JString "b"] "level"
                eq_refl eq_refl eq_refl) as (out & Hout & Hlevel).
    exists out. split; [exact Hout|]. rewrite Hlevel. evaluate.
  - destruct (output_is_first_accepted_field exampleImports kanjiEvent
                "dir-1" [] kanjiProps [JString "ns"] "1"
                eq_refl eq_refl eq_refl) as (out & Hout & H1).
    destruct (output_is_first_accepted_field exampleImports kanjiEvent
                "dir-1" [] kanjiProps [JString "ns"] "2"
                eq_refl eq_refl eq_refl) as (out' & Hout' & H2).
    assert (out' = out) as -> by congruence.
    exists out. split; [exact Hout|]. split.
    + rewrite H1. evaluate.
    + rewrite H2. evaluate.
Defined.

Lemma repeated_schema_entry_witness :
  fst (extractExample repeatedEvent "dir-1" [])
  = Normal (scimUserAttributes
              (snd (forEach (visitSchema exampleImports repeatedProps)
                      [JString "hr"; JString coreSchemaUrn] (initial [])))).
Proof.
  apply (repeated_schema_entry_changes_nothing exampleImports repeatedEvent
           "dir-1" [] repeatedProps [] (JString "hr") [JString coreSchemaUrn]
           []); reflexivity.
Defined.

(** The verbose directory: one warning for [grade], then the dump. *)
Lemma console_dump_witness :
  fst (extractExample repeatedEvent "dir-verbose" [])
  = Normal (<["title" := JString "Director"]>
              (<["nickname" := JString "Bob"]> ∅))
  /\ exists logs,
       Forall (fun e => isConsoleLog e = false) logs
       /\ snd (extractExample repeatedEvent "dir-verbose" [])
          = ([] ++ logs ++
             (if supportedEvent repeatedEvent
                 && bool_decide ("dir-verbose"
                                 ∈ DIRECTORY_IDS_TO_LOG exampleImports)
              then [ConsoleLog "Collected Attributes:"
                      (<["title" := JString "Director"]>
                         (<["nickname" := JString "Bob"]> ∅))]
              else []))%list.
Proof.
  assert (Hout : fst (extractExample repeatedEvent "dir-verbose" [])
                 = Normal (<["title" := JString "Director"]>
                             (<["nickname" := JString "Bob"]> ∅)))
    by evaluate.
  split; [exact Hout|].
  exact (console_dump_is_last_and_is_the_result exampleImports repeatedEvent
           "dir-verbose" [] _ Hout).
Defined.

(** The document of the source's doc comment: the core visit is silent. *)
Lemma core_visit_is_silent_witness :
  forallb (passedOverSilently coreUserAttributesToIgnore (initial []))
          (withoutSchemas documentedProps) = true
  /\ visitSchema exampleImports documentedProps (JString coreSchemaUrn)
       (initial [])
     = (Normal tt, initial []).
Proof.
  assert (Hall : forallb (passedOverSilently coreUserAttributesToIgnore
                            (initial []))
                         (withoutSchemas documentedProps) = true)
    by evaluate.
  split; [exact Hall|].
  exact (core_visit_is_silent exampleImports documentedProps (initial []) Hall).
Defined.

(** [nickname] is bound, offered by the root; of the string "日本" the
    names "0" and "1" are offered, so "2" is not bound. *)
Lemma bound_names_witness :
  (exists out,
     fst (extractExample repeatedEvent "dir-1" []) = Normal out
     /\ is_Some (out !! "nickname"))
  /\ (exists out,
        fst (extractExample kanjiEvent "dir-1" []) = Normal out
        /\ out !! "2" = None).
Proof.
  split.
  - destruct (bound_names_are_the_offered_names exampleImports repeatedEvent
                "dir-1" [] repeatedProps
                [JString "hr"; JString coreSchemaUrn; JString "hr"] "nickname"
                eq_refl eq_refl eq_refl) as (out & Hout & Hiff).
    exists out. split; [exact Hout|]. apply Hiff. split; [evaluate|].
    exists (JString coreSchemaUrn), (JString "Bob").
    split; [right; left|]. split; [|reflexivity].
    vm_compute. left.
  - destruct (bound_names_are_the_offered_names exampleImports kanjiEvent
                "dir-1" [] kanjiProps [JString "ns"] "2"
                eq_refl eq_refl eq_refl) as (out & Hout & Hiff).
    exists out. split; [exact Hout|].
    destruct (out !! "2") as [w|] eqn:Hw; [exfalso|reflexivity].
    destruct (proj1 Hiff (ex_intro _ w eq_refl))
      as (_ & schema & v & Hin & Hfield & _).
    apply list_elem_of_singleton in Hin as ->.
    change (candidateFields kanjiProps (JString "ns"))
      with [("0", JString "日"); ("1", JString "本")] in Hfield.
    apply elem_of_cons in Hfield as [Heq | Hfield]; [discriminate Heq|].
    apply elem_of_cons in Hfield as [Heq | Hfield]; [discriminate Heq|].
    by apply elem_of_nil in Hfield.
Defined.

(** The documented document yields the documented result, nothing logged. *)
Example documented_transformation :
  extractExample documentedEvent "dir-1" []
  = (Normal (<["territory" := JString "NAM"]>
               (<["segment" := JString "SMB"]> ∅)), []).
Proof. vm_compute. reflexivity. Qed.

(** Scenario 3: [custom] is listed in [schemas] and missing from [raw];
    the entry "segment" after it is processed: its array of strings is
    bound, its number is not. *)
Lemma skipped_entries_witness :
  skippedEntry scoreProps (JString "custom") = true
  /\ fst (extractExample scoreEvent "dir-1" [])
     = Normal (<["segment" := JArray [JString "SMB"; JString "Enterprise"]]> ∅)
  /\ exists out,
       fst (extractExample scoreEvent "dir-1" []) = Normal out
       /\ out !! "segment"
          = Some (JArray [JString "SMB"; JString "Enterprise"])
       /\ out !! "score" = None.
Proof.
  split; [reflexivity|].
  destruct (skipped_entries_contribute_nothing exampleImports scoreProps
              (JString "custom") eq_refl) as (_ & _ & Hcall).
  destruct (Hcall scoreEvent "dir-1" [] [] [JString "segment"]
              eq_refl eq_refl eq_refl) as (Hwalk & out & Hout & Hfirst).
  split.
  - rewrite Hwalk. evaluate.
  - exists out. split; [exact Hout|]. split; rewrite Hfirst; evaluate.
Defined.

(** A string is walked by UTF-16 code units, as [Object.entries] lists
    it: one entry for each of the two characters of "日本", and none
    under ["2"]. *)
Example namespace_given_as_non_ascii_string :
  ownEntries (JString "日本") = [("0", JString "日"); ("1", JString "本")]
  /\ fst (extractExample kanjiEvent "dir-1" [])
     = Normal (<["0" := JString "日"]> (<["1" := JString "本"]> ∅)).
Proof. split; vm_compute; reflexivity. Qed.

(** A character beyond U+FFFF gives its two surrogates. *)
Example astral_character_gives_two_entries :
  map fst (ownEntries (JString "a😀")) = ["0"; "1"; "2"]
  /\ utf16Units (String.list_ascii_of_string "😀")
     = [encodeUnit 0xD83D; encodeUnit 0xDE00].
Proof. split; vm_compute; reflexivity. Qed.
